(** * intro_ml_pytorch: the notebooks' own code, embedded and verified

    The repository is a set of teaching notebooks.  The code of its own is
    - [cross_entropy] and [m_cross_entropy] (Cross-Entropy notebook),
    - [print_metrics] and the cells that call it (Spam & Ensembles notebook),
    - the training loop (Training Neural Networks notebook),
    - the data-loading cells (Regularization and Spam notebooks).

    Numbers.  NumPy computes with binary64 and int64.  The two functions
    are embedded three times, each time closer to the machine:
    - [CrossEntropy] computes with exact real numbers and unbounded integers:
      a [float_] is either a real number or the token [NonFinite], which
      stands for the three binary64 values inf, -inf and nan.  A statement
      about a computed value is a statement about the exact value that
      binary64 approximates.
    - [Int64] adds the width of int64: [np.int_] raises OverflowError on a
      label that does not fit, and [1 - Y] wraps around.
    - [Binary64] computes on Python ints and floats with the arithmetic of
      binary64 itself; only [np.log] and the order of summation of [np.sum]
      are left open there.
    Where rounding or overflow decides a statement, it is made and proved in
    [Int64] or [Binary64]. *)

From Stdlib Require Import Reals Lra Lia ZArith QArith List String Ascii Bool.
From Stdlib Require Floats.
Import ListNotations.

(* ===================================================================== *)
(** ** NumPy: the fragment the cross-entropy cells use                    *)
(* ===================================================================== *)

Module NumPy.

Local Open Scope R_scope.

(** A binary64 value: a real number, or one of inf, -inf, nan. *)
Inductive float_ : Type :=
| Finite (r : R)
| NonFinite.

(** The exception a NumPy operator raises on arrays whose shapes do not
    broadcast together. *)
Inductive exn : Type :=
| ValueError.

(** Outcome of a cell expression: a value, or a raised exception. *)
Definition result (A : Type) : Type := (exn + A)%type.

Definition ret {A} (a : A) : result A := inr a.
Definition raise {A} (e : exn) : result A := inl e.
Definition bind {A B} (m : result A) (k : A -> result B) : result B :=
  match m with
  | inl e => inl e
  | inr a => k a
  end.

Declare Scope np_scope.
Delimit Scope np_scope with np.
Notation "x <- m ;; k" := (bind m (fun x => k))
  (at level 61, m at next level, right associativity) : np_scope.

(** Scalar arithmetic.  An operand that is inf, -inf or nan never gives a
    finite sum, difference or product (0 * inf is nan), so [NonFinite] is
    absorbing. *)
Definition lift2 (f : R -> R -> R) (a b : float_) : float_ :=
  match a, b with
  | Finite x, Finite y => Finite (f x y)
  | _, _ => NonFinite
  end.

Definition add : float_ -> float_ -> float_ := lift2 Rplus.
Definition sub : float_ -> float_ -> float_ := lift2 Rminus.
Definition mul : float_ -> float_ -> float_ := lift2 Rmult.

Definition neg (a : float_) : float_ :=
  match a with
  | Finite x => Finite (- x)
  | NonFinite => NonFinite
  end.

(** [np.log] on one element: log 0 is -inf, the log of a negative number is
    nan, the log of inf, -inf or nan is inf or nan. *)
Definition log1 (a : float_) : float_ :=
  match a with
  | Finite x => if Rlt_dec 0 x then Finite (ln x) else NonFinite
  | NonFinite => NonFinite
  end.

(** The conversion of an int64 element when it meets a float64 operand. *)
Definition of_int (z : Z) : float_ := Finite (IZR z).

(** One-dimensional arrays. *)
Definition ndarray (A : Type) : Type := list A.

(** [np.int_] on one element: the C cast, which truncates towards zero. *)
Definition int_1 (r : R) : Z :=
  if Rle_dec 0 r then Int_part r else (- Int_part (- r))%Z.

(** [np.int_(Y)] and [np.float_(P)] on a Python list of numbers. *)
Definition np_int_ (Y : list R) : ndarray Z := map int_1 Y.
Definition np_float_ (P : list R) : ndarray float_ := map Finite P.

(** [np.log(a)]: element-wise, never raises. *)
Definition np_log (a : ndarray float_) : ndarray float_ := map log1 a.

(** [1 - a] for an int64 array and for a float64 array: the scalar is
    broadcast over the array. *)
Definition rsub_int (c : Z) (a : ndarray Z) : ndarray Z :=
  map (fun y => (c - y)%Z) a.
Definition rsub_float (c : R) (a : ndarray float_) : ndarray float_ :=
  map (fun p => sub (Finite c) p) a.

Fixpoint zip_with {A B C} (f : A -> B -> C) (a : list A) (b : list B) : list C :=
  match a, b with
  | x :: a', y :: b' => f x y :: zip_with f a' b'
  | _, _ => []
  end.

(** A binary operator on two one-dimensional arrays: element by element on
    equal lengths; an array of length one is stretched over the other;
    any other pair of lengths raises ValueError. *)
Definition broadcast {A B C} (f : A -> B -> C)
  (a : ndarray A) (b : ndarray B) : result (ndarray C) :=
  if Nat.eqb (List.length a) (List.length b) then ret (zip_with f a b)
  else match a, b with
       | [x], _ => ret (map (f x) b)
       | _, [y] => ret (map (fun x => f x y) a)
       | _, _ => raise ValueError
       end.

(** [a * b] with [a] int64 and [b] float64; [a * b] and [a + b] with both
    float64. *)
Definition mul_int_float (a : ndarray Z) (b : ndarray float_) :=
  broadcast (fun y l => mul (of_int y) l) a b.
Definition mul_float (a b : ndarray float_) := broadcast mul a b.
Definition add_float (a b : ndarray float_) := broadcast add a b.

(** [np.sum(a)] of an array: all elements, starting from 0. *)
Definition np_sum (a : ndarray float_) : float_ :=
  fold_left add a (Finite 0).

(** [np.sum(x)] of a scalar: the scalar. *)
Definition np_sum0 (x : float_) : float_ := x.

End NumPy.

(* ===================================================================== *)
(** ** The Cross-Entropy notebook                                         *)
(* ===================================================================== *)

Module CrossEntropy.

Import NumPy.
Local Open Scope R_scope.
Local Open Scope np_scope.

(** def cross_entropy(Y, P):
        Y = np.int_(Y)
        P = np.float_(P)
        return -np.sum(Y*np.log(P) + (1 -Y)*np.log(1-P)) *)
Definition cross_entropy (Y P : list R) : result float_ :=
  let Y := np_int_ Y in
  let P := np_float_ P in
  a <- mul_int_float Y (np_log P) ;;
  b <- mul_int_float (rsub_int 1 Y) (np_log (rsub_float 1 P)) ;;
  s <- add_float a b ;;
  ret (neg (np_sum s)).

(** def m_cross_entropy(Y, P):
        Y = np.float_(Y)
        P = np.float_(P)
        return -np.sum(np.sum(Y*np.log(P) + (1 -Y)*np.log(1-P))) *)
Definition m_cross_entropy (Y P : list R) : result float_ :=
  let Y := np_float_ Y in
  let P := np_float_ P in
  a <- mul_float Y (np_log P) ;;
  b <- mul_float (rsub_float 1 Y) (np_log (rsub_float 1 P)) ;;
  s <- add_float a b ;;
  ret (neg (np_sum0 (np_sum s))).

(** *** The formulas the notebook displays

    These follow the notebook's markdown cells, not the code: they are what
    the two functions are compared with. *)

(** [ln x] where the logarithm is defined. *)
Definition Ln (x : R) : float_ :=
  if Rlt_dec 0 x then Finite (ln x) else NonFinite.

(** One summand of the binary formula: y ln(p) + (1 - y) ln(1 - p). *)
Definition binary_term (y p : R) : float_ :=
  add (mul (Finite y) (Ln p)) (mul (Finite (1 - y)) (Ln (1 - p))).

Fixpoint binary_terms (Y P : list R) : float_ :=
  match Y, P with
  | y :: Y', p :: P' => add (binary_term y p) (binary_terms Y' P')
  | _, _ => Finite 0
  end.

(** Cross-Entropy = - sum_i  y_i ln(p_i) + (1 - y_i) ln(1 - p_i) *)
Definition binary_formula (Y P : list R) : float_ :=
  neg (binary_terms Y P).

(** The same sum over the real numbers, for probabilities inside (0, 1). *)
Fixpoint binary_sum (Y P : list R) : R :=
  match Y, P with
  | y :: Y', p :: P' => (y * ln p + (1 - y) * ln (1 - p)) + binary_sum Y' P'
  | _, _ => 0
  end.

(** One row of the multi-class formula: sum_j y_j ln(p_j). *)
Fixpoint multiclass_row (Y P : list R) : float_ :=
  match Y, P with
  | y :: Y', p :: P' => add (mul (Finite y) (Ln p)) (multiclass_row Y' P')
  | _, _ => Finite 0
  end.

Fixpoint multiclass_rows (Y P : list (list R)) : float_ :=
  match Y, P with
  | y :: Y', p :: P' => add (multiclass_row y p) (multiclass_rows Y' P')
  | _, _ => Finite 0
  end.

(** Multi-Class Cross-Entropy = - sum_i sum_j  y_ij ln(p_ij) *)
Definition multiclass_formula (Y P : list (list R)) : float_ :=
  neg (multiclass_rows Y P).

(** The integer-truncated labels, as numbers again. *)
Definition truncated (Y : list R) : list R :=
  map (fun y => IZR (int_1 y)) Y.

(** The element-wise complement 1 - v. *)
Definition complement (V : list R) : list R :=
  map (fun v => 1 - v) V.

(** Labels that are 0 or 1; probabilities strictly between 0 and 1. *)
Definition is_label (y : R) : Prop := y = 0 \/ y = 1.
Definition is_prob (p : R) : Prop := 0 < p < 1.

(** The decimal numerals of the notebook's outputs and the tolerance of
    one unit in their last printed place. *)
Definition out_55 : R := 4828313737302301 / 10 ^ 15.
Definition out_89 : R := 7025538314638521 / 10 ^ 15.
Definition tolerance : R := 1 / 10 ^ 15.

End CrossEntropy.

(* ===================================================================== *)
(** ** Certified enclosures of natural logarithms                         *)
(* ===================================================================== *)

(** The values the notebook prints are logarithms of rational numbers.
    An enclosure of [ln q] is certified by integer arithmetic alone:
    [1 + x <= exp x] gives [(1 + u/2^k)^(2^k) <= exp u], and the power is
    bounded from below by [k] squarings in fixed point, each rounded down. *)
Module LogBounds.

(** [k] squarings of [a / s] in fixed point with scale [s], rounded down. *)
Fixpoint pow2k_floor (s : Z) (k : nat) (a : Z) : Z :=
  match k with
  | O => a
  | S k' => pow2k_floor s k' (a * a / s)
  end.

(** The fixed-point numeral of [1 + (un/ud) / 2^k], rounded down. *)
Definition start (s : Z) (k : nat) (un ud : Z) : Z :=
  (s + (s * un) / (ud * 2 ^ Z.of_nat k))%Z.

(** Checks [qn/qd <= (1 + (un/ud)/2^k)^(2^k)], hence [ln (qn/qd) <= un/ud]. *)
Definition ln_le_check (s : Z) (k : nat) (qn qd un ud : Z) : bool :=
  ((0 <? s) && (0 <? qn) && (0 <? qd) && (0 <? ud)
   && (0 <=? start s k un ud)
   && (qn * s <=? pow2k_floor s k (start s k un ud) * qd))%Z.

(** Checks [ln (qn/qd) >= ln/ld] through [ln (qd/qn) <= -ln/ld]. *)
Definition ln_ge_check (s : Z) (k : nat) (qn qd ln ld : Z) : bool :=
  ln_le_check s k qd qn (- ln) ld.

(** Scale and number of squarings used for the notebook's values. *)
Definition scale : Z := 2 ^ 200.
Definition squarings : nat := 80.

End LogBounds.

(* ===================================================================== *)
(** ** Notebook cells as programs over library calls                      *)
(* ===================================================================== *)

(** A cell is a program that calls into pandas, scikit-learn or PyTorch.
    The libraries are not part of the repository: a call is an event, the
    library's answer comes from a handler, and a statement about a cell
    holds for every handler.  A run records each call with its answer. *)
Module Py.

(** Exceptions raised by the cells' own expressions. *)
Inductive exn : Type :=
| ZeroDivisionError
| IndexError.

Section Prog.

Context {E : Type -> Type}.

Inductive prog (A : Type) : Type :=
| Ret (a : A)
| Raise (e : exn)
| Vis (X : Type) (e : E X) (k : X -> prog A).

Arguments Ret {A} a.
Arguments Raise {A} e.
Arguments Vis {A X} e k.

Fixpoint bind {A B} (p : prog A) (f : A -> prog B) : prog B :=
  match p with
  | Ret a => f a
  | Raise e => Raise e
  | Vis e k => Vis e (fun x => bind (k x) f)
  end.

(** One library call. *)
Definition call {X} (e : E X) : prog X := Vis e Ret.

(** [for x in xs: body x] *)
Fixpoint for_each {A} (xs : list A) (body : A -> prog unit) : prog unit :=
  match xs with
  | [] => Ret tt
  | x :: xs' => bind (body x) (fun _ => for_each xs' body)
  end.

(** A recorded call: the event and the library's answer. *)
Inductive entry : Type :=
| Entry (X : Type) (e : E X) (x : X).

Arguments Entry {X} e x.

(** A library: how each call answers and changes the world [W]. *)
Definition handler (W : Type) : Type := forall X, E X -> W -> X * W.

(** Outcome of a run: the result or the exception, the world after it and
    the calls made, in order. *)
Fixpoint run {A W} (h : handler W) (p : prog A) (w : W)
  : (exn + A) * W * list entry :=
  match p with
  | Ret a => (inr a, w, [])
  | Raise e => (inl e, w, [])
  | Vis e k =>
      let '(x, w1) := h _ e w in
      let '(r, w2, t) := run h (k x) w1 in
      (r, w2, Entry e x :: t)
  end.

Definition outcome {A W} (r : (exn + A) * W * list entry) : exn + A :=
  fst (fst r).
Definition world {A W} (r : (exn + A) * W * list entry) : W :=
  snd (fst r).
Definition trace {A W} (r : (exn + A) * W * list entry) : list entry :=
  snd r.

End Prog.

Arguments prog E A : clear implicits.
Arguments entry E : clear implicits.
Arguments handler E W : clear implicits.
Arguments Ret {E A} a.
Arguments Raise {E A} e.
Arguments Vis {E A X} e k.
Arguments Entry {E X} e x.

Declare Scope py_scope.
Delimit Scope py_scope with py.
Notation "x <- p ;; q" := (bind p (fun x => q))
  (at level 61, p at next level, right associativity) : py_scope.
Notation "p ;; q" := (bind p (fun _ => q))
  (at level 61, right associativity) : py_scope.
Notation "' pat <- p ;; q" := (bind p (fun x => match x with pat => q end))
  (at level 61, pat pattern, p at next level, right associativity) : py_scope.

(** The elements of a list that [f] picks out, as [f] shows them. *)
Fixpoint collect {A B} (f : A -> option B) (l : list A) : list B :=
  match l with
  | [] => []
  | a :: l' =>
      match f a with
      | Some b => b :: collect f l'
      | None => collect f l'
      end
  end.

(** The characters the notebooks write with a backslash. *)
Definition tab : string := String "009"%char EmptyString.
Definition nl : string := String "010"%char EmptyString.

End Py.

(* ===================================================================== *)
(** ** The Spam & Ensembles notebook                                      *)
(* ===================================================================== *)

Module Spam.

Import Py.
Local Open Scope string_scope.
Local Open Scope py_scope.

(** The estimators the notebook instantiates, with the hyperparameters it
    passes. *)
Inductive estimator : Type :=
| MultinomialNB
| BaggingClassifier (n_estimators : nat)
| RandomForestClassifier (n_estimators : nat)
| AdaBoostClassifier (n_estimators : nat) (learning_rate : Q).

(** What the notebook takes from pandas, scikit-learn and Python: the
    objects it handles, the four functions of [sklearn.metrics], which
    depend on the two label vectors only, and Python's [format] on the
    float they return. *)
Class Library : Type := {
  DataFrame : Type;
  Series : Type;
  Matrix : Type;
  Array : Type;
  Vectorizer : Type;
  Classifier : Type;
  score : Type;
  accuracy_score : Series -> Array -> score;
  precision_score : Series -> Array -> score;
  recall_score : Series -> Array -> score;
  f1_score : Series -> Array -> score;
  format : score -> string
}.

Section Notebook.

Context `{Library}.

(** The calls the notebook makes. *)
Variant libE : Type -> Type :=
| read_table (path sep : string) (header : option nat)
    (names : list string) : libE DataFrame
| getitem (df : DataFrame) (column : string) : libE Series
| map_ (s : Series) (mapping : list (string * Z)) : libE Series
| setitem (df : DataFrame) (column : string) (s : Series) : libE unit
| train_test_split (X y : Series) (random_state : Z)
  : libE (Series * Series * Series * Series)
| CountVectorizer : libE Vectorizer
| fit_transform (v : Vectorizer) (X : Series) : libE Matrix
| transform (v : Vectorizer) (X : Series) : libE Matrix
| new (e : estimator) : libE Classifier
| fit (c : Classifier) (X : Matrix) (y : Series) : libE Classifier
| predict (c : Classifier) (X : Matrix) : libE Array
| print (args : list string) : libE unit.

Definition cell : Type -> Type := prog libE.

(** def print_metrics(y_true, preds, model_name=None):
        if model_name == None:
            print('Accuracy score: ', format(accuracy_score(y_true, preds)))
            print('Precision score: ', format(precision_score(y_true, preds)))
            print('Recall score: ', format(recall_score(y_true, preds)))
            print('F1 score: ', format(f1_score(y_true, preds)))
            print('\n\n')
        else:
            print('Accuracy score for ' + model_name + ' :' , format(accuracy_score(y_true, preds)))
            print('Precision score ' + model_name + ' :', format(precision_score(y_true, preds)))
            print('Recall score ' + model_name + ' :', format(recall_score(y_true, preds)))
            print('F1 score ' + model_name + ' :', format(f1_score(y_true, preds)))
            print('\n\n') *)
Definition print_metrics (y_true : Series) (preds : Array)
  (model_name : option string) : cell unit :=
  match model_name with
  | None =>
      call (print ["Accuracy score: "; format (accuracy_score y_true preds)]) ;;
      call (print ["Precision score: "; format (precision_score y_true preds)]) ;;
      call (print ["Recall score: "; format (recall_score y_true preds)]) ;;
      call (print ["F1 score: "; format (f1_score y_true preds)]) ;;
      call (print [nl ++ nl])
  | Some model_name =>
      call (print ["Accuracy score for " ++ model_name ++ " :";
                   format (accuracy_score y_true preds)]) ;;
      call (print ["Precision score " ++ model_name ++ " :";
                   format (precision_score y_true preds)]) ;;
      call (print ["Recall score " ++ model_name ++ " :";
                   format (recall_score y_true preds)]) ;;
      call (print ["F1 score " ++ model_name ++ " :";
                   format (f1_score y_true preds)]) ;;
      call (print [nl ++ nl])
  end.

(** The names the notebook has bound when its last cell is done. *)
Record namespace : Type := {
  df : DataFrame;
  X_train : Series; X_test : Series; y_train : Series; y_test : Series;
  count_vector : Vectorizer;
  training_data : Matrix; testing_data : Matrix;
  naive_bayes : Classifier; predictions : Array;
  bagging_class : Classifier;
  randomForest_class : Classifier;
  adaBoost_class : Classifier;
  bagging_pred : Array; random_pred : Array; ada_pred : Array
}.

(** The code cells, top to bottom. *)
Definition notebook : cell namespace :=
  (* cell [8]: the naive Bayes classifier of the Spam project *)
  df <- call (read_table "Data/SMSSpamCollection" tab None
                ["label"; "sms_message"]) ;;
  label <- call (getitem df "label") ;;
  label <- call (map_ label [("ham", 0%Z); ("spam", 1%Z)]) ;;
  call (setitem df "label" label) ;;
  sms_message <- call (getitem df "sms_message") ;;
  label <- call (getitem df "label") ;;
  ' (X_train, X_test, y_train, y_test) <-
      call (train_test_split sms_message label 1) ;;
  count_vector <- call CountVectorizer ;;
  training_data <- call (fit_transform count_vector X_train) ;;
  testing_data <- call (transform count_vector X_test) ;;
  naive_bayes <- call (new MultinomialNB) ;;
  call (fit naive_bayes training_data y_train) ;;
  predictions <- call (predict naive_bayes testing_data) ;;
  call (print ["Accuracy score: "; format (accuracy_score y_test predictions)]) ;;
  call (print ["Precision score: "; format (precision_score y_test predictions)]) ;;
  call (print ["Recall score: "; format (recall_score y_test predictions)]) ;;
  call (print ["F1 score: "; format (f1_score y_test predictions)]) ;;
  (* cell [10]: instantiate the ensembles *)
  bagging_class <- call (new (BaggingClassifier 200)) ;;
  randomForest_class <- call (new (RandomForestClassifier 200)) ;;
  adaBoost_class <- call (new (AdaBoostClassifier 300 (2 # 10))) ;;
  (* cell [11]: fit them to the training data *)
  call (fit bagging_class training_data y_train) ;;
  call (fit randomForest_class training_data y_train) ;;
  call (fit adaBoost_class training_data y_train) ;;
  (* cell [16]: predict on the test data *)
  bagging_pred <- call (predict bagging_class testing_data) ;;
  random_pred <- call (predict randomForest_class testing_data) ;;
  ada_pred <- call (predict adaBoost_class testing_data) ;;
  (* cell [23]: the scores *)
  print_metrics y_test bagging_pred (Some "bagging") ;;
  print_metrics y_test random_pred (Some "Random Forest") ;;
  print_metrics y_test ada_pred (Some "AdaBoost") ;;
  print_metrics y_test predictions (Some "Naive Bayes") ;;
  Ret {| df := df;
         X_train := X_train; X_test := X_test;
         y_train := y_train; y_test := y_test;
         count_vector := count_vector;
         training_data := training_data; testing_data := testing_data;
         naive_bayes := naive_bayes; predictions := predictions;
         bagging_class := bagging_class;
         randomForest_class := randomForest_class;
         adaBoost_class := adaBoost_class;
         bagging_pred := bagging_pred; random_pred := random_pred;
         ada_pred := ada_pred |}.

(** What a recorded call shows: the arguments of a [print], the file and
    separator of a read. *)
Definition print_args (c : entry libE) : option (list string) :=
  match c with
  | Entry (print args) _ => Some args
  | Entry _ _ => None
  end.

Definition read_of (c : entry libE) : option (string * string) :=
  match c with
  | Entry (read_table path sep _ _) _ => Some (path, sep)
  | Entry _ _ => None
  end.

(** Everything printed, call by call, and every file read. *)
Definition printed (t : list (entry libE)) : list (list string) :=
  collect print_args t.
Definition reads (t : list (entry libE)) : list (string * string) :=
  collect read_of t.

(** The value a metric line shows: the second argument of its [print]. *)
Definition value_of (args : list string) : option string :=
  match args with
  | [_; v] => Some v
  | _ => None
  end.
Definition printed_values (t : list (entry libE)) : list string :=
  collect value_of (printed t).

(** In the run [t], an estimator [e] is instantiated, then fitted to
    [(X, y)], then asked for its predictions on [Xt], which are [preds]. *)
Definition fitted_then_predicts (t : list (entry libE)) (e : estimator)
  (X : Matrix) (y : Series) (Xt : Matrix) (preds : Array) : Prop :=
  exists (c c' : Classifier) (i j k : nat),
    (i < j < k)%nat
    /\ nth_error t i = Some (Entry (new e) c)
    /\ nth_error t j = Some (Entry (fit c X y) c')
    /\ nth_error t k = Some (Entry (predict c Xt) preds).

(** In the run [t], the four names [X_train], [X_test], [y_train] and
    [y_test] are the answer of the one [train_test_split], so that [y_test]
    holds the held-out labels. *)
Definition split_in (t : list (entry libE))
  (X_train X_test y_train y_test : Series) : Prop :=
  exists X y : Series,
    In (Entry (train_test_split X y 1) (X_train, X_test, y_train, y_test)) t.

(** The four metrics of a pair of label vectors, as printed. *)
Definition four_metrics (y_true : Series) (preds : Array) : list string :=
  [format (accuracy_score y_true preds);
   format (precision_score y_true preds);
   format (recall_score y_true preds);
   format (f1_score y_true preds)].

End Notebook.

End Spam.

(* ===================================================================== *)
(** ** The Training Neural Networks notebook: the training cell           *)
(* ===================================================================== *)

Module Training.

Import Py.
Local Open Scope string_scope.
Local Open Scope py_scope.

(** The layers handed to [nn.Sequential]. *)
Inductive layer : Type :=
| Linear (in_features out_features : nat)
| ReLU
| LogSoftmax (dim : nat).

(** What the cell takes from PyTorch and Python: the objects it handles;
    Python's float with the operations the cell applies to it; and
    [trainloader], bound by an earlier cell of the notebook. *)
Class Library : Type := {
  Tensor : Type;
  Model : Type;
  Criterion : Type;
  Params : Type;
  Optimizer : Type;
  Loader : Type;
  pyfloat : Type;
  zero : pyfloat;
  plus : pyfloat -> pyfloat -> pyfloat;
  divide : pyfloat -> nat -> pyfloat;
  str : pyfloat -> string;
  trainloader : Loader
}.

Section Cell.

Context `{Library}.

(** The calls the cell makes.  [iterate] is one pass of a [for] statement
    over the loader: the batches it yields, in order. *)
Variant torchE : Type -> Type :=
| Sequential (layers : list layer) : torchE Model
| NLLLoss : torchE Criterion
| parameters (m : Model) : torchE Params
| SGD (p : Params) (lr : Q) : torchE Optimizer
| iterate (l : Loader) : torchE (list (Tensor * Tensor))
| view_flat (images : Tensor) : torchE Tensor
| zero_grad (o : Optimizer) : torchE unit
| forward (m : Model) (images : Tensor) : torchE Tensor
| criterion_ (c : Criterion) (output labels : Tensor) : torchE Tensor
| backward (loss : Tensor) : torchE unit
| step (o : Optimizer) : torchE unit
| item (loss : Tensor) : torchE pyfloat
| len (l : Loader) : torchE nat
| print (line : string) : torchE unit.

Definition cell : Type -> Type := prog torchE.

(** [range(n)] *)
Definition range (n : nat) : list nat := seq 0 n.

(** [x / n] on a float and an int: raises when [n] is 0. *)
Definition truediv (x : pyfloat) (n : nat) : cell pyfloat :=
  match n with
  | O => Raise ZeroDivisionError
  | S _ => Ret (divide x n)
  end.

Definition layers : list layer :=
  [Linear 784 128; ReLU; Linear 128 64; ReLU; Linear 64 10; LogSoftmax 1].

Definition epochs : nat := 5.

(** The body of the inner [for]: one batch.  It returns the new
    [running_loss]. *)
Definition batch_body (model : Model) (criterion : Criterion)
  (optimizer : Optimizer) (running_loss : pyfloat)
  (batch : Tensor * Tensor) : cell pyfloat :=
  let '(images, labels) := batch in
  (* images = images.view(images.shape[0], -1) *)
  images <- call (view_flat images) ;;
  call (zero_grad optimizer) ;;
  output <- call (forward model images) ;;
  loss <- call (criterion_ criterion output labels) ;;
  call (backward loss) ;;
  call (step optimizer) ;;
  x <- call (item loss) ;;
  Ret (plus running_loss x).

(** [for images, labels in trainloader: ...], threading [running_loss]. *)
Fixpoint batches_loop (model : Model) (criterion : Criterion)
  (optimizer : Optimizer) (running_loss : pyfloat)
  (batches : list (Tensor * Tensor)) : cell pyfloat :=
  match batches with
  | [] => Ret running_loss
  | b :: rest =>
      running_loss <- batch_body model criterion optimizer running_loss b ;;
      batches_loop model criterion optimizer running_loss rest
  end.

(** The body of the outer [for]: one epoch.  The inner [for] has no
    [break], so its [else] branch always runs. *)
Definition epoch_body (model : Model) (criterion : Criterion)
  (optimizer : Optimizer) (e : nat) : cell unit :=
  let running_loss := zero in
  batches <- call (iterate trainloader) ;;
  running_loss <- batches_loop model criterion optimizer running_loss batches ;;
  n <- call (len trainloader) ;;
  mean <- truediv running_loss n ;;
  call (print ("Training loss: " ++ str mean)).

(** model = nn.Sequential(nn.Linear(784, 128), nn.ReLU(),
                          nn.Linear(128, 64), nn.ReLU(),
                          nn.Linear(64, 10), nn.LogSoftmax(dim=1))
    criterion = nn.NLLLoss()
    optimizer = optim.SGD(model.parameters(), lr=0.003)
    epochs = 5
    for e in range(epochs):
        running_loss = 0
        for images, labels in trainloader:
            images = images.view(images.shape[0], -1)
            optimizer.zero_grad()
            output = model.forward(images)
            loss = criterion(output, labels)
            loss.backward()
            optimizer.step()
            running_loss += loss.item()
        else:
            print(f"Training loss: {running_loss/len(trainloader)}") *)
Definition training_cell : cell unit :=
  model <- call (Sequential layers) ;;
  criterion <- call NLLLoss ;;
  params <- call (parameters model) ;;
  optimizer <- call (SGD params (3 # 1000)) ;;
  for_each (range epochs) (epoch_body model criterion optimizer).

(** *** What a run of the cell should look like *)

(** The calls of one batch iteration, in order, with the data flowing
    from each call to the next. *)
Definition batch_calls (model : Model) (criterion : Criterion)
  (optimizer : Optimizer) (batch : Tensor * Tensor)
  (t : list (entry torchE)) : Prop :=
  exists (flat output loss : Tensor) (x : pyfloat),
    t = [Entry (view_flat (fst batch)) flat;
         Entry (zero_grad optimizer) tt;
         Entry (forward model flat) output;
         Entry (criterion_ criterion output (snd batch)) loss;
         Entry (backward loss) tt;
         Entry (step optimizer) tt;
         Entry (item loss) x].

(** The calls of one pass over the loader: the pass itself, the calls of
    each batch it yields, and the line printed at its end. *)
Definition epoch_calls (model : Model) (criterion : Criterion)
  (optimizer : Optimizer) (t : list (entry torchE)) : Prop :=
  exists (batches : list (Tensor * Tensor))
         (ts : list (list (entry torchE))) (n : nat) (line : string),
    Forall2 (batch_calls model criterion optimizer) batches ts
    /\ t = (Entry (iterate trainloader) batches :: List.concat ts
            ++ [Entry (len trainloader) n; Entry (print line) tt])%list.

(** The calls of the whole cell with [n] epochs. *)
Definition training_calls (n : nat) (t : list (entry torchE)) : Prop :=
  exists (model : Model) (criterion : Criterion) (params : Params)
         (optimizer : Optimizer) (es : list (list (entry torchE))),
    List.length es = n
    /\ Forall (epoch_calls model criterion optimizer) es
    /\ t = ([Entry (Sequential layers) model;
             Entry NLLLoss criterion;
             Entry (parameters model) params;
             Entry (SGD params (3 # 1000)) optimizer]
            ++ List.concat es)%list.

(** The passes over the loader that a run has made. *)
Definition is_pass (c : entry torchE) : bool :=
  match c with
  | Entry (iterate _) _ => true
  | Entry _ _ => false
  end.

Definition passes (t : list (entry torchE)) : nat :=
  List.length (filter is_pass t).

(** A handler whose loader is never empty. *)
Definition loader_nonempty {W} (h : handler torchE W) : Prop :=
  forall w : W, fst (h _ (len trainloader) w) <> O.

End Cell.

End Training.

(* ===================================================================== *)
(** ** The Regularization notebook                                        *)
(* ===================================================================== *)

Module Regularization.

Import Py.
Local Open Scope string_scope.
Local Open Scope py_scope.

(** What the notebook takes from pandas and scikit-learn: the cells of a
    data frame, the estimator and its coefficients. *)
Class Library : Type := {
  cell_ : Type;
  Lasso_ : Type;
  Coef : Type
}.

Section Notebook.

Context `{Library}.

(** A data frame is its columns, left to right; a column is its cells. *)
Definition column : Type := list cell_.
Definition frame : Type := list column.

(** The calls the notebook makes.  [read_csv] carries the separator
    pandas uses when none is given. *)
Variant libE : Type -> Type :=
| read_csv (path sep : string) (header : option nat) : libE frame
| Lasso : libE Lasso_
| fit (m : Lasso_) (X : frame) (y : column) : libE Lasso_
| coef_ (m : Lasso_) : libE Coef.

Definition cell : Type -> Type := prog libE.

Definition default_sep : string := ",".

(** [df.iloc[:, :-1]]: every column but the last. *)
Definition iloc_but_last (df : frame) : frame := removelast df.

(** [df.iloc[:, -1]]: the last column; IndexError when there is none. *)
Fixpoint iloc_last (df : frame) : cell column :=
  match df with
  | [] => Raise IndexError
  | [c] => Ret c
  | _ :: df' => iloc_last df'
  end.

(** The names the notebook has bound when its last cell is done. *)
Record namespace : Type := {
  train_data : frame;
  X : frame;
  y : column;
  lasso_reg : Lasso_;
  reg_coef : Coef
}.

(** train_data = pd.read_csv('testData/regularizationData.csv', header=None)
    X = train_data.iloc[:, :-1]
    y = train_data.iloc[:, -1]
    lasso_reg = linear_model.Lasso()
    lasso_reg.fit(X, y)
    reg_coef = lasso_reg.coef_ *)
Definition notebook : cell namespace :=
  train_data <- call (read_csv "testData/regularizationData.csv"
                        default_sep None) ;;
  let X := iloc_but_last train_data in
  y <- iloc_last train_data ;;
  lasso_reg <- call Lasso ;;
  call (fit lasso_reg X y) ;;
  reg_coef <- call (coef_ lasso_reg) ;;
  Ret {| train_data := train_data; X := X; y := y;
         lasso_reg := lasso_reg; reg_coef := reg_coef |}.

(** The file and separator of a recorded read. *)
Definition read_of (c : entry libE) : option (string * string) :=
  match c with
  | Entry (read_csv path sep _) _ => Some (path, sep)
  | Entry _ _ => None
  end.

(** Every file read during a run. *)
Definition reads (t : list (entry libE)) : list (string * string) :=
  collect read_of t.

End Notebook.

End Regularization.

(* ===================================================================== *)
(** ** Small libraries to run the cells against                           *)
(* ===================================================================== *)

(** Stand-ins for PyTorch and for pandas with scikit-learn, small enough
    to run a cell by computation: every object is [tt], the loader yields
    one batch, the data file has seven columns of one cell each. *)
Module Toy.

Import Py.

Definition torch : Training.Library :=
  {| Training.Tensor := unit;
     Training.Model := unit;
     Training.Criterion := unit;
     Training.Params := unit;
     Training.Optimizer := unit;
     Training.Loader := unit;
     Training.pyfloat := nat;
     Training.zero := 0%nat;
     Training.plus := Nat.add;
     Training.divide := Nat.div;
     Training.str := fun _ => EmptyString;
     Training.trainloader := tt |}.

Definition torch_handler : handler (@Training.torchE torch) unit :=
  fun X e w =>
    match e in Training.torchE X return X * unit with
    | Training.Sequential _ => (tt, w)
    | Training.NLLLoss => (tt, w)
    | Training.parameters _ => (tt, w)
    | Training.SGD _ _ => (tt, w)
    | Training.iterate _ => ([(tt, tt)], w)
    | Training.view_flat _ => (tt, w)
    | Training.zero_grad _ => (tt, w)
    | Training.forward _ _ => (tt, w)
    | Training.criterion_ _ _ _ => (tt, w)
    | Training.backward _ => (tt, w)
    | Training.step _ => (tt, w)
    | Training.item _ => (1%nat, w)
    | Training.len _ => (1%nat, w)
    | Training.print _ => (tt, w)
    end.

Definition pandas : Regularization.Library :=
  {| Regularization.cell_ := nat;
     Regularization.Lasso_ := unit;
     Regularization.Coef := unit |}.

Definition seven_columns_frame : @Regularization.frame pandas :=
  [[1]; [2]; [3]; [4]; [5]; [6]; [7]]%nat.

Definition pandas_handler : handler (@Regularization.libE pandas) unit :=
  fun X e w =>
    match e in Regularization.libE X return X * unit with
    | Regularization.read_csv _ _ _ => (seven_columns_frame, w)
    | Regularization.Lasso => (tt, w)
    | Regularization.fit m _ _ => (m, w)
    | Regularization.coef_ _ => (tt, w)
    end.

End Toy.

(* ===================================================================== *)
(** ** Shapes, and views of a recorded run                                *)
(* ===================================================================== *)

(** What the statements about shapes and about the calls of a run are
    written with. *)
Module Shapes.

(** The length of the result of a binary operator on two one-dimensional
    arrays that broadcast: the common length, or the other length when one
    operand has length one. *)
Definition shape (m n : nat) : nat :=
  if Nat.eqb m n then m else if Nat.eqb m 1 then n else m.

(** The lengths on which the array expression of the two cross-entropy
    functions does not broadcast. *)
Definition mismatch (Y P : list R) : Prop :=
  List.length Y <> List.length P
  /\ List.length Y <> 1%nat /\ List.length P <> 1%nat.

End Shapes.

Module SpamCalls.

Import Py Spam.

Section Notebook.

Context `{Library}.

(** What a recorded call shows of a fit, a prediction and the two uses of
    the vectorizer: the object and the data it was given. *)
Definition fit_of (c : entry libE) : option (Classifier * Matrix * Series) :=
  match c with
  | Entry (fit c X y) _ => Some (c, X, y)
  | Entry _ _ => None
  end.

Definition predict_of (c : entry libE) : option (Classifier * Matrix) :=
  match c with
  | Entry (predict c X) _ => Some (c, X)
  | Entry _ _ => None
  end.

Definition fit_transform_of (c : entry libE) : option (Vectorizer * Series) :=
  match c with
  | Entry (fit_transform v X) _ => Some (v, X)
  | Entry _ _ => None
  end.

Definition transform_of (c : entry libE) : option (Vectorizer * Series) :=
  match c with
  | Entry (transform v X) _ => Some (v, X)
  | Entry _ _ => None
  end.

(** The calls that handle data: every recorded call but the [print]s. *)
Definition data_call (c : entry libE) : option (entry libE) :=
  match c with
  | Entry (print _) _ => None
  | Entry _ _ => Some c
  end.

End Notebook.

End SpamCalls.

Module TrainingCalls.

Import Py Training.
Local Open Scope string_scope.

(** The three calls that touch the gradients. *)
Inductive grad_call : Type :=
| ZeroGrad
| Backward
| Step.

Section Cell.

Context `{Library}.

Definition grad_of (c : entry torchE) : option grad_call :=
  match c with
  | Entry (zero_grad _) _ => Some ZeroGrad
  | Entry (backward _) _ => Some Backward
  | Entry (step _) _ => Some Step
  | Entry _ _ => None
  end.

(** The number of batches a recorded pass yielded. *)
Definition batches_of (c : entry torchE) : option nat :=
  match c with
  | Entry (iterate _) batches => Some (List.length batches)
  | Entry _ _ => None
  end.

(** The answers of [loss.item()] and of [len(trainloader)], and the lines
    printed. *)
Definition item_of (c : entry torchE) : option pyfloat :=
  match c with
  | Entry (item _) x => Some x
  | Entry _ _ => None
  end.

Definition len_of (c : entry torchE) : option nat :=
  match c with
  | Entry (len _) n => Some n
  | Entry _ _ => None
  end.

Definition line_of (c : entry torchE) : option string :=
  match c with
  | Entry (print line) _ => Some line
  | Entry _ _ => None
  end.

(** All batches seen in a run. *)
Definition batches_seen (t : list (entry torchE)) : nat :=
  list_sum (collect batches_of t).

(** [running_loss] after the items [xs], from 0. *)
Definition running_loss_of (xs : list pyfloat) : pyfloat :=
  fold_left plus xs zero.

(** The calls of one epoch report the mean loss of that epoch: the epoch
    opens with its pass, asks the loader's length once, and prints one
    line, the sum of its own items divided by that length. *)
Definition epoch_reports_mean (t : list (entry torchE)) : Prop :=
  exists (batches : list (Tensor * Tensor)) (rest : list (entry torchE))
         (n : nat),
    t = Entry (iterate trainloader) batches :: rest
    /\ passes rest = 0%nat
    /\ collect len_of t = [n]
    /\ collect line_of t
       = ["Training loss: "
          ++ str (divide (running_loss_of (collect item_of t)) n)].

(** A handler whose loader is always empty. *)
Definition loader_empty {W} (h : handler torchE W) : Prop :=
  forall w : W, fst (h _ (len trainloader) w) = O.

End Cell.

End TrainingCalls.

(** The one-batch PyTorch with its loader emptied, and the names that the
    regularization notebook binds on the small pandas. *)
Module ToyMore.

Import Py.

Definition torch_empty_handler : handler (@Training.torchE Toy.torch) unit :=
  fun X e w =>
    match e in Training.torchE X return X * unit with
    | Training.iterate _ => ([], w)
    | Training.len _ => (0%nat, w)
    | e' => Toy.torch_handler _ e' w
    end.

(** The names the regularization notebook binds on the seven-column file. *)
Definition seven_columns_names : @Regularization.namespace Toy.pandas :=
  {| Regularization.train_data := Toy.seven_columns_frame;
     Regularization.X := [[1]; [2]; [3]; [4]; [5]; [6]]%nat;
     Regularization.y := [7]%nat;
     Regularization.lasso_reg := tt;
     Regularization.reg_coef := tt |}.

End ToyMore.

(* ===================================================================== *)
(** ** NumPy with the int64 range written out                             *)
(* ===================================================================== *)

(** [NumPy] keeps the labels as unbounded integers.  Here the two places
    where the width of int64 shows are written out: [np.int_] raises
    OverflowError on a label that does not fit, and [1 - Y] on the int64
    array wraps around.  The float side is that of [NumPy]. *)
Module Int64.

Import NumPy.

Inductive exn : Type :=
| ValueError
| OverflowError.

Definition result (A : Type) : Type := (exn + A)%type.

Definition ret {A} (a : A) : result A := inr a.
Definition raise {A} (e : exn) : result A := inl e.
Definition bind {A B} (m : result A) (k : A -> result B) : result B :=
  match m with
  | inl e => inl e
  | inr a => k a
  end.

Declare Scope np64_scope.
Delimit Scope np64_scope with np64.
Notation "x <- m ;; k" := (bind m (fun x => k))
  (at level 61, m at next level, right associativity) : np64_scope.

(** An outcome of [NumPy], among the outcomes here. *)
Definition lift {A} (r : NumPy.result A) : result A :=
  match r with
  | inl NumPy.ValueError => inl ValueError
  | inr a => inr a
  end.

Definition min_int : Z := (- 2 ^ 63)%Z.
Definition max_int : Z := (2 ^ 63 - 1)%Z.

Definition fits (z : Z) : bool := ((min_int <=? z) && (z <=? max_int))%Z.

(** The int64 that an integer result is reduced to. *)
Definition wrap (z : Z) : Z := ((z - min_int) mod 2 ^ 64 + min_int)%Z.

(** [np.int_(Y)] on a Python list of numbers: each element is converted as
    Python's [int] does, truncating towards zero; an integer outside int64
    raises OverflowError. *)
Definition np_int_ (Y : list R) : result (ndarray Z) :=
  let Yi := map int_1 Y in
  if forallb fits Yi then ret Yi else raise OverflowError.

(** [c - a] for an int64 array. *)
Definition rsub_int (c : Z) (a : ndarray Z) : ndarray Z :=
  map (fun y => wrap (c - y)) a.

Local Open Scope np64_scope.

(** def cross_entropy(Y, P):
        Y = np.int_(Y)
        P = np.float_(P)
        return -np.sum(Y*np.log(P) + (1 -Y)*np.log(1-P)) *)
Definition cross_entropy (Y P : list R) : result float_ :=
  Y <- np_int_ Y ;;
  let P := np_float_ P in
  a <- lift (mul_int_float Y (np_log P)) ;;
  b <- lift (mul_int_float (rsub_int 1 Y) (np_log (rsub_float 1 P))) ;;
  s <- lift (add_float a b) ;;
  ret (neg (np_sum s)).

(** [m_cross_entropy] has no int64 array: its outcomes are those of
    [CrossEntropy.m_cross_entropy]. *)
Definition m_cross_entropy (Y P : list R) : result float_ :=
  lift (CrossEntropy.m_cross_entropy Y P).

(** *** What the statements about the conversion are written with *)

Local Open Scope R_scope.

(** [z] is [y] truncated towards zero. *)
Definition truncation_of (y : R) (z : Z) : Prop :=
  (0 <= y -> IZR z <= y < IZR z + 1)
  /\ (y < 0 -> IZR z - 1 < y <= IZR z).

(** The numbers whose truncation fits in int64. *)
Definition in_range (y : R) : Prop := - 2 ^ 63 - 1 < y < 2 ^ 63.


(** Numbers that [np.float_] converts; on a Python int of 2^1024 or more
    it raises OverflowError. *)
Definition float_range (x : R) : Prop := - 2 ^ 1023 < x < 2 ^ 1023.


End Int64.

(* ===================================================================== *)
(** ** cross_entropy in binary64                                          *)
(* ===================================================================== *)

(** [cross_entropy] once more, on Python ints and Python floats, with the
    arithmetic of binary64: Rocq's primitive floats are binary64, and their
    [+], [-] and [*] round as NumPy's do.  [np.log] and the order in which
    [np.sum] adds are those of the installed NumPy and C library: they are
    parameters, and a statement holds for each choice of them. *)
Module Binary64.

Import Floats Int64.
Local Open Scope float_scope.

(** The two compiled loops: [np.log] on one float64, and [np.sum] on a
    one-dimensional float64 array. *)
Class Ufuncs : Type := {
  log1 : float -> float;
  np_sum : list float -> float
}.

(** The conversion of an int64 element when it meets a float64 operand: the
    nearest float64. *)
Definition of_int (z : Z) : float :=
  SF2Prim (binary_normalize prec emax z 0 false).

(** Zeros and finite numbers, as opposed to inf, -inf and nan. *)
Definition finite (x : float) : bool :=
  match Prim2SF x with
  | S754_zero _ | S754_finite _ _ _ => true
  | S754_infinity _ | S754_nan => false
  end.

Section Cell.

Context `{Ufuncs}.

(** [np.int_(Y)] on a list of Python ints: an int outside int64 raises
    OverflowError. *)
Definition np_int_ (Y : list Z) : Int64.result (list Z) :=
  if forallb Int64.fits Y then Int64.ret Y
  else Int64.raise Int64.OverflowError.

(** [np.float_(P)] on a list of Python floats. *)
Definition np_float_ (P : list float) : list float := P.

Definition np_log (a : list float) : list float := map log1 a.

Definition rsub_float (c : float) (a : list float) : list float :=
  map (fun p => c - p) a.

Definition mul_int_float (a : list Z) (b : list float) :=
  NumPy.broadcast (fun y l => of_int y * l) a b.
Definition add_float (a b : list float) :=
  NumPy.broadcast PrimFloat.add a b.

Local Open Scope np64_scope.

(** def cross_entropy(Y, P):
        Y = np.int_(Y)
        P = np.float_(P)
        return -np.sum(Y*np.log(P) + (1 -Y)*np.log(1-P)) *)
Definition cross_entropy (Y : list Z) (P : list float)
  : Int64.result float :=
  Y <- np_int_ Y ;;
  let P := np_float_ P in
  a <- Int64.lift (mul_int_float Y (np_log P)) ;;
  b <- Int64.lift (mul_int_float (Int64.rsub_int 1 Y)
                     (np_log (rsub_float 1 P))) ;;
  s <- Int64.lift (add_float a b) ;;
  Int64.ret (- np_sum s).

(** [np.float_(Y)] on a list of Python ints: each int becomes the nearest
    float64; an int too large for a float64 raises OverflowError. *)
Definition np_float_of_ints (Y : list Z) : Int64.result (list float) :=
  if forallb (fun z => finite (of_int z)) Y then Int64.ret (map of_int Y)
  else Int64.raise Int64.OverflowError.

Definition mul_float (a b : list float) :=
  NumPy.broadcast PrimFloat.mul a b.

(** [np.sum(x)] of a scalar: the scalar. *)
Definition np_sum0 (x : float) : float := x.

(** def m_cross_entropy(Y, P):
        Y = np.float_(Y)
        P = np.float_(P)
        return -np.sum(np.sum(Y*np.log(P) + (1 -Y)*np.log(1-P))) *)
Definition m_cross_entropy (Y : list Z) (P : list float)
  : Int64.result float :=
  Y <- np_float_of_ints Y ;;
  let P := np_float_ P in
  a <- Int64.lift (mul_float Y (np_log P)) ;;
  b <- Int64.lift (mul_float (rsub_float 1 Y) (np_log (rsub_float 1 P))) ;;
  s <- Int64.lift (add_float a b) ;;
  Int64.ret (- np_sum0 (np_sum s)).

End Cell.

(** The caller's complements: [1 - y] on Python ints, [1 - p] on Python
    floats. *)
Definition complement_int (Y : list Z) : list Z :=
  map (fun y => (1 - y)%Z) Y.
Definition complement (P : list float) : list float :=
  map (fun p => 1 - p) P.

(** Labels that are 0 or 1; probabilities strictly between 0 and 1. *)
Definition is_label (y : Z) : Prop := y = 0%Z \/ y = 1%Z.
Definition is_prob (p : float) : Prop :=
  (0 <? p) = true /\ (p <? 1) = true.

(** A probability whose complement complements back to it, as it does when
    [1 - p] is an exact difference. *)
Definition round_trips (p : float) : Prop := 1 - (1 - p) = p.

(** The float64 nearest to 1e-17. *)
Definition tiny : float := 0x1.70ef54646d497p-57.

(** What IEEE 754 and NumPy fix of the two parameters: log 0 is -inf,
    log 1 is 0, the log of a positive finite number is finite, and the sum
    of an array of one element is that element. *)
Definition ieee (L : Ufuncs) : Prop :=
  log1 0 = neg_infinity
  /\ log1 1 = 0
  /\ (forall x : float,
         (0 <? x) = true -> (x <? infinity) = true -> finite (log1 x) = true)
  /\ (forall x : float, np_sum [x] = x).

(** The float64 nearest to ln(1/2), which a correctly rounded logarithm
    returns at 1/2. *)
Definition ln_half64 : float := -0x1.62e42fefa39efp-1.


End Binary64.

(** Small loops for running [Binary64.cross_entropy]: the logarithm is
    right at 1/2 and at 1 and cut down to its sign elsewhere, the sum adds
    from left to right. *)
Module ToyUfuncs.

Import Floats.
Local Open Scope float_scope.

Definition log1 (x : float) : float :=
  match Prim2SF x with
  | S754_nan => nan
  | S754_infinity s => if s then nan else infinity
  | S754_zero _ => neg_infinity
  | S754_finite s _ _ =>
      if s then nan
      else if x =? 0.5 then Binary64.ln_half64
      else if x <? 1 then -1
      else if x =? 1 then 0
      else 1
  end.

Definition np_sum (a : list float) : float :=
  match a with
  | [] => 0
  | x :: a' => fold_left PrimFloat.add a' x
  end.

Definition ufuncs : Binary64.Ufuncs :=
  {| Binary64.log1 := log1; Binary64.np_sum := np_sum |}.

End ToyUfuncs.

(* ===================================================================== *)
(** * Theorems                                                            *)
(* ===================================================================== *)

Module LogBoundsFacts.

Import LogBounds.
Local Open Scope R_scope.

Lemma exp_pow_nat (x : R) (n : nat) : exp x ^ n = exp (INR n * x).
Proof.
  induction n as [|n IH].
  - simpl. rewrite Rmult_0_l, exp_0. reflexivity.
  - rewrite S_INR. simpl pow. rewrite IH, <- exp_plus. f_equal. ring.
Qed.

Lemma one_plus_pow_le_exp (u : R) (n : nat) :
  (0 < n)%nat -> 0 <= 1 + u / INR n -> (1 + u / INR n) ^ n <= exp u.
Proof.
  intros Hn Hpos.
  assert (HnR : 0 < INR n) by (apply lt_0_INR; exact Hn).
  replace (exp u) with (exp (u / INR n) ^ n).
  - apply pow_incr. split; [exact Hpos | apply exp_ineq1_le].
  - rewrite exp_pow_nat. f_equal. field. lra.
Qed.

Lemma ln_le_of_le_exp (q u : R) : 0 < q -> q <= exp u -> ln q <= u.
Proof.
  intros Hq Hle.
  destruct (Rle_lt_dec (ln q) u) as [H|H]; [exact H|].
  apply exp_increasing in H. rewrite exp_ln in H by exact Hq. lra.
Qed.

Lemma IZR_div_le (a s : Z) : (0 < s)%Z -> IZR (a / s) <= IZR a / IZR s.
Proof.
  intros Hs.
  assert (HsR : 0 < IZR s) by (apply IZR_lt; exact Hs).
  apply Rmult_le_reg_r with (IZR s); [exact HsR|].
  unfold Rdiv. rewrite Rmult_assoc, Rinv_l, Rmult_1_r by lra.
  rewrite <- mult_IZR. apply IZR_le.
  rewrite Z.mul_comm. apply Z.mul_div_le. exact Hs.
Qed.

Lemma pow2k_floor_nonneg (s : Z) (k : nat) (a : Z) :
  (0 < s)%Z -> (0 <= a)%Z -> (0 <= pow2k_floor s k a)%Z.
Proof.
  intros Hs. revert a. induction k as [|k IH]; intros a Ha; simpl.
  - exact Ha.
  - apply IH. apply Z.div_pos; [nia | exact Hs].
Qed.

Lemma pow2k_floor_sound (s : Z) (k : nat) :
  (0 < s)%Z ->
  forall (a : Z) (x : R),
    (0 <= a)%Z -> IZR a <= IZR s * x ->
    IZR (pow2k_floor s k a) <= IZR s * x ^ (2 ^ k).
Proof.
  intros Hs.
  assert (HsR : 0 < IZR s) by (apply IZR_lt; exact Hs).
  induction k as [|k IH]; intros a x Ha Hax.
  - simpl. lra.
  - simpl pow2k_floor.
    replace (x ^ (2 ^ S k)) with ((x * x) ^ (2 ^ k)).
    + apply IH.
      * apply Z.div_pos; [nia | exact Hs].
      * apply Rle_trans with (IZR (a * a) / IZR s);
          [apply IZR_div_le; exact Hs|].
        rewrite mult_IZR.
        assert (H0 : 0 <= IZR a) by (apply IZR_le; exact Ha).
        apply Rmult_le_reg_r with (IZR s); [exact HsR|].
        unfold Rdiv. rewrite Rmult_assoc, Rinv_l, Rmult_1_r by lra.
        nra.
    + change (2 ^ S k)%nat with (2 * 2 ^ k)%nat.
      rewrite pow_mult. f_equal. simpl. ring.
Qed.

Lemma ln_le_check_sound (s : Z) (k : nat) (qn qd un ud : Z) :
  ln_le_check s k qn qd un ud = true ->
  ln (IZR qn / IZR qd) <= IZR un / IZR ud.
Proof.
  unfold ln_le_check. intros H.
  repeat (apply andb_prop in H; destruct H as [H ?]).
  repeat match goal with
         | h : (_ <? _)%Z = true |- _ => apply Z.ltb_lt in h
         | h : (_ <=? _)%Z = true |- _ => apply Z.leb_le in h
         end.
  assert (HsR : 0 < IZR s) by (apply IZR_lt; assumption).
  assert (HqnR : 0 < IZR qn) by (apply IZR_lt; assumption).
  assert (HqdR : 0 < IZR qd) by (apply IZR_lt; assumption).
  assert (HudR : 0 < IZR ud) by (apply IZR_lt; assumption).
  set (n := (2 ^ k)%nat).
  assert (HnR : INR n = IZR (2 ^ Z.of_nat k)).
  { unfold n. rewrite pow_INR, <- pow_IZR. reflexivity. }
  assert (Hn0 : 0 < INR n).
  { unfold n. rewrite pow_INR. apply pow_lt. simpl. lra. }
  set (x := 1 + IZR un / IZR ud / INR n).
  assert (Hstart : IZR (start s k un ud) <= IZR s * x).
  { unfold start, x. rewrite plus_IZR.
    assert (Hden : (0 < ud * 2 ^ Z.of_nat k)%Z).
    { apply Z.mul_pos_pos; [assumption|]. apply Z.pow_pos_nonneg; lia. }
    pose proof (IZR_div_le (s * un) _ Hden) as Hdiv.
    rewrite !mult_IZR, <- HnR in Hdiv.
    replace (IZR s * (1 + IZR un / IZR ud / INR n))
      with (IZR s + IZR s * IZR un / (IZR ud * INR n)) by (field; lra).
    lra. }
  assert (Hx : 0 <= x).
  { assert (Hst0 : 0 <= IZR (start s k un ud)) by (apply IZR_le; assumption).
    nra. }
  apply ln_le_of_le_exp.
  - apply Rdiv_lt_0_compat; assumption.
  - apply Rle_trans with (x ^ n).
    + assert (Hs : (0 < s)%Z) by assumption.
      assert (Hst : (0 <= start s k un ud)%Z) by assumption.
      pose proof (pow2k_floor_sound s k Hs _ x Hst Hstart) as Hpow.
      fold n in Hpow.
      match goal with
      | h : (qn * s <= _)%Z |- _ => apply IZR_le in h; rewrite !mult_IZR in h
      end.
      apply Rmult_le_reg_r with (IZR qd); [exact HqdR|].
      unfold Rdiv at 1. rewrite Rmult_assoc, Rinv_l, Rmult_1_r by lra.
      apply Rmult_le_reg_r with (IZR s); [exact HsR|].
      nra.
    + unfold x. apply one_plus_pow_le_exp.
      * unfold n. clear. induction k; simpl; lia.
      * exact Hx.
Qed.

Lemma ln_ge_check_sound (s : Z) (k : nat) (qn qd ln_ ld : Z) :
  ln_ge_check s k qn qd ln_ ld = true ->
  IZR ln_ / IZR ld <= ln (IZR qn / IZR qd).
Proof.
  unfold ln_ge_check. intros H.
  pose proof (ln_le_check_sound _ _ _ _ _ _ H) as Hle.
  unfold ln_le_check in H.
  repeat (apply andb_prop in H; destruct H as [H ?]).
  repeat match goal with
         | h : (_ <? _)%Z = true |- _ => apply Z.ltb_lt in h
         | h : (_ <=? _)%Z = true |- _ => apply Z.leb_le in h
         end.
  assert (HqnR : 0 < IZR qn) by (apply IZR_lt; assumption).
  assert (HqdR : 0 < IZR qd) by (apply IZR_lt; assumption).
  assert (HudR : 0 < IZR ld) by (apply IZR_lt; assumption).
  replace (IZR qd / IZR qn) with (/ (IZR qn / IZR qd)) in Hle
    by (field; lra).
  rewrite ln_Rinv in Hle by (apply Rdiv_lt_0_compat; assumption).
  rewrite opp_IZR in Hle.
  unfold Rdiv in Hle. rewrite <- Ropp_mult_distr_l in Hle.
  unfold Rdiv. lra.
Qed.

End LogBoundsFacts.

(* ===================================================================== *)
(** ** NumPy: arithmetic and broadcasting                                 *)
(* ===================================================================== *)

Module NumPyFacts.

Import NumPy.
Local Open Scope R_scope.

Lemma float_add_comm (a b : float_) : add a b = add b a.
Proof. destruct a, b; simpl; try reflexivity. f_equal. ring. Qed.

Lemma float_add_assoc (a b c : float_) : add a (add b c) = add (add a b) c.
Proof. destruct a, b, c; simpl; try reflexivity. f_equal. ring. Qed.

Lemma float_add_0_l (a : float_) : add (Finite 0) a = a.
Proof. destruct a; simpl; try reflexivity. f_equal. ring. Qed.

Lemma fold_left_add (l : list float_) (a : float_) :
  fold_left add l a = add a (fold_right add (Finite 0) l).
Proof.
  revert a. induction l as [|x l IH]; intros a; simpl.
  - destruct a; simpl; try reflexivity. f_equal. ring.
  - rewrite IH, float_add_assoc. reflexivity.
Qed.

(** [np.sum] adds the elements up, in whichever order. *)
Lemma np_sum_fold_right (l : ndarray float_) :
  np_sum l = fold_right add (Finite 0) l.
Proof. unfold np_sum. rewrite fold_left_add, float_add_0_l. reflexivity. Qed.

Lemma zip_with_length {A B C} (f : A -> B -> C) (a : list A) (b : list B) :
  List.length a = List.length b ->
  List.length (zip_with f a b) = List.length a.
Proof.
  revert b. induction a as [|x a IH]; intros [|y b] H; simpl in *;
    try reflexivity; try discriminate.
  f_equal. apply IH. congruence.
Qed.

Lemma broadcast_same_length {A B C} (f : A -> B -> C) (a : list A) (b : list B) :
  List.length a = List.length b ->
  broadcast f a b = ret (zip_with f a b).
Proof.
  intros H. unfold broadcast. rewrite H, Nat.eqb_refl. reflexivity.
Qed.

Lemma zip_with_ext {A B C} (f g : A -> B -> C) (a : list A) (b : list B) :
  (forall x y, f x y = g x y) -> zip_with f a b = zip_with g a b.
Proof.
  intros H. revert b. induction a as [|x a IH]; intros [|y b]; simpl;
    try reflexivity.
  rewrite H, IH. reflexivity.
Qed.

Lemma zip_with_map_l {A A' B C} (f : A' -> B -> C) (g : A -> A')
  (a : list A) (b : list B) :
  zip_with f (map g a) b = zip_with (fun x y => f (g x) y) a b.
Proof.
  revert b. induction a as [|x a IH]; intros [|y b]; simpl; try reflexivity.
  rewrite IH. reflexivity.
Qed.

Lemma zip_with_map_r {A B B' C} (f : A -> B' -> C) (g : B -> B')
  (a : list A) (b : list B) :
  zip_with f a (map g b) = zip_with (fun x y => f x (g y)) a b.
Proof.
  revert b. induction a as [|x a IH]; intros [|y b]; simpl; try reflexivity.
  rewrite IH. reflexivity.
Qed.

(** A pointwise equal operator broadcasts to the same outcome. *)
Lemma broadcast_ext {A B C} (f g : A -> B -> C) (a : list A) (b : list B) :
  (forall x y, f x y = g x y) -> broadcast f a b = broadcast g a b.
Proof.
  intros H. unfold broadcast.
  assert (Hl : forall x l, map (f x) l = map (g x) l).
  { intros x l. apply map_ext. intros z. apply H. }
  assert (Hr : forall y l, map (fun z => f z y) l = map (fun z => g z y) l).
  { intros y l. apply map_ext. intros z. apply H. }
  destruct (Nat.eqb (List.length a) (List.length b)).
  - rewrite (zip_with_ext f g a b H). reflexivity.
  - destruct a as [|x [|x' a]]; destruct b as [|y [|y' b]];
      cbv beta iota; rewrite ?Hl, ?Hr; reflexivity.
Qed.

Lemma broadcast_map_l {A A' B C} (f : A' -> B -> C) (g : A -> A')
  (a : list A) (b : list B) :
  broadcast f (map g a) b = broadcast (fun x y => f (g x) y) a b.
Proof.
  unfold broadcast. rewrite length_map.
  destruct (Nat.eqb (List.length a) (List.length b)).
  - rewrite zip_with_map_l. reflexivity.
  - destruct a as [|x [|x' a]]; destruct b as [|y [|y' b]]; simpl;
      rewrite ?map_map; reflexivity.
Qed.

(** The truncation leaves an integer as it is. *)
Lemma int_1_IZR (z : Z) : int_1 (IZR z) = z.
Proof.
  assert (Hint : forall k : Z, Int_part (IZR k) = k).
  { intros k. symmetry. apply Int_part_spec. lra. }
  unfold int_1. destruct (Rle_dec 0 (IZR z)) as [H|H].
  - apply Hint.
  - rewrite <- opp_IZR, Hint. lia.
Qed.

End NumPyFacts.

(* ===================================================================== *)
(** ** The Cross-Entropy notebook: what the two functions return         *)
(* ===================================================================== *)

Module CrossEntropyFacts.

Import NumPy CrossEntropy NumPyFacts.
Local Open Scope R_scope.

Lemma log1_Finite (p : R) : log1 (Finite p) = Ln p.
Proof. reflexivity. Qed.

(** The array expression of both functions, element by element. *)
Lemma array_terms (Y P : list R) :
  fold_right add (Finite 0)
    (zip_with add
       (zip_with mul (np_float_ Y) (np_log (np_float_ P)))
       (zip_with mul (rsub_float 1 (np_float_ Y))
          (np_log (rsub_float 1 (np_float_ P)))))
  = binary_terms Y P.
Proof.
  revert P. induction Y as [|y Y IH]; intros [|p P]; try reflexivity.
  simpl fold_right. simpl binary_terms. rewrite <- IH. reflexivity.
Qed.

Lemma m_cross_entropy_formula (Y P : list R) :
  List.length Y = List.length P ->
  m_cross_entropy Y P = ret (binary_formula Y P).
Proof.
  intros Hlen. unfold m_cross_entropy, mul_float, add_float.
  assert (Hl : forall (A B : Type) (f : A -> B) (l : list A),
             List.length (map f l) = List.length l)
    by (intros; apply length_map).
  rewrite 2!broadcast_same_length
    by (unfold np_float_, np_log, rsub_float; rewrite !Hl; exact Hlen).
  simpl bind.
  rewrite broadcast_same_length
    by (unfold np_float_, np_log, rsub_float;
        rewrite !zip_with_length; rewrite ?Hl; auto).
  simpl bind. unfold np_sum0. rewrite np_sum_fold_right, array_terms.
  reflexivity.
Qed.

(** [cross_entropy] is [m_cross_entropy] on the truncated labels, whatever
    the two lengths are. *)
Lemma cross_entropy_truncated (Y P : list R) :
  cross_entropy Y P = m_cross_entropy (truncated Y) P.
Proof.
  unfold cross_entropy, m_cross_entropy, mul_int_float, mul_float.
  unfold truncated, np_int_, np_float_, rsub_int, rsub_float.
  rewrite !map_map, !broadcast_map_l.
  rewrite (broadcast_ext
             (fun (x : R) (y : float_) => mul (of_int (1 - int_1 x)) y)
             (fun (x : R) (y : float_) =>
                mul (sub (Finite 1) (Finite (IZR (int_1 x)))) y)).
  - reflexivity.
  - intros x y. unfold of_int. rewrite minus_IZR. reflexivity.
Qed.

Lemma truncated_labels (Y : list R) :
  Forall is_label Y -> truncated Y = Y.
Proof.
  unfold truncated. induction 1 as [|y Y Hy _ IH]; simpl.
  - reflexivity.
  - rewrite IH. f_equal. destruct Hy as [-> | ->]; rewrite int_1_IZR; reflexivity.
Qed.

Lemma Ln_pos (x : R) : 0 < x -> Ln x = Finite (ln x).
Proof. intros H. unfold Ln. destruct (Rlt_dec 0 x); [reflexivity | contradiction]. Qed.

(** Inside (0, 1) every logarithm is finite, and the formula is a real
    number. *)
Lemma binary_terms_finite (Y P : list R) :
  Forall is_prob P -> binary_terms Y P = Finite (binary_sum Y P).
Proof.
  intros HP. revert Y. induction HP as [|p P [Hp0 Hp1] _ IH]; intros [|y Y];
    try reflexivity.
  simpl. rewrite IH. unfold binary_term.
  rewrite !Ln_pos by lra. reflexivity.
Qed.

Lemma m_cross_entropy_finite (Y P : list R) :
  List.length Y = List.length P -> Forall is_prob P ->
  m_cross_entropy Y P = ret (Finite (- binary_sum Y P)).
Proof.
  intros Hlen HP. rewrite m_cross_entropy_formula by exact Hlen.
  unfold binary_formula. rewrite binary_terms_finite by exact HP.
  reflexivity.
Qed.

Lemma truncated_length (Y : list R) : List.length (truncated Y) = List.length Y.
Proof. unfold truncated. apply length_map. Qed.

Lemma cross_entropy_finite (Y P : list R) :
  List.length Y = List.length P -> Forall is_prob P ->
  cross_entropy Y P = ret (Finite (- binary_sum (truncated Y) P)).
Proof.
  intros Hlen HP. rewrite cross_entropy_truncated.
  apply m_cross_entropy_finite; [rewrite truncated_length; exact Hlen | exact HP].
Qed.


(** The notebook's two sums, in closed form. *)
Lemma sum_55 :
  - binary_sum [1; 0; 1; 1] [4 / 10; 6 / 10; 1 / 10; 5 / 10] = ln (125 / 1).
Proof.
  simpl binary_sum.
  replace (125 / 1) with (/ (4 / 10 * ((1 - 6 / 10) * (1 / 10 * (5 / 10)))))
    by field.
  rewrite ln_Rinv by lra.
  rewrite !ln_mult by lra. ring.
Qed.

Lemma sum_89 :
  - binary_sum [1; 0; 2; 1] [4 / 10; 6 / 10; 1 / 10; 5 / 10] = ln (1125 / 1).
Proof.
  simpl binary_sum.
  replace (1125 / 1)
    with (/ (4 / 10 * ((1 - 6 / 10)
             * ((1 / 10 * (1 / 10) * / (1 - 1 / 10)) * (5 / 10)))))
    by field.
  rewrite ln_Rinv by lra.
  rewrite !ln_mult by lra. rewrite ln_Rinv by lra. ring.
Qed.

Lemma ln_125_enclosure : Rabs (ln (125 / 1) - out_55) < tolerance.
Proof.
  assert (Hup : ln (125 / 1) <= 48283137373023012 / 10000000000000000).
  { apply (LogBoundsFacts.ln_le_check_sound LogBounds.scale LogBounds.squarings).
    vm_compute. reflexivity. }
  assert (Hlo : 48283137373023011 / 10000000000000000 <= ln (125 / 1)).
  { apply (LogBoundsFacts.ln_ge_check_sound LogBounds.scale LogBounds.squarings).
    vm_compute. reflexivity. }
  unfold out_55, tolerance. apply Rabs_def1; lra.
Qed.

Lemma ln_1125_enclosure : Rabs (ln (1125 / 1) - out_89) < tolerance.
Proof.
  assert (Hup : ln (1125 / 1) <= 70255383146385206 / 10000000000000000).
  { apply (LogBoundsFacts.ln_le_check_sound LogBounds.scale LogBounds.squarings).
    vm_compute. reflexivity. }
  assert (Hlo : 70255383146385205 / 10000000000000000 <= ln (1125 / 1)).
  { apply (LogBoundsFacts.ln_ge_check_sound LogBounds.scale LogBounds.squarings).
    vm_compute. reflexivity. }
  unfold out_89, tolerance. apply Rabs_def1; lra.
Qed.

Lemma labels_1011 : Forall is_label [1; 0; 1; 1].
Proof. repeat (apply Forall_cons; [unfold is_label; auto|]). apply Forall_nil. Qed.

Lemma probs_4615 : Forall is_prob [4 / 10; 6 / 10; 1 / 10; 5 / 10].
Proof. repeat (apply Forall_cons; [unfold is_prob; lra|]). apply Forall_nil. Qed.

Lemma m_cross_entropy_55 :
  m_cross_entropy [1; 0; 1; 1] [4 / 10; 6 / 10; 1 / 10; 5 / 10]
  = ret (Finite (- binary_sum [1; 0; 1; 1] [4 / 10; 6 / 10; 1 / 10; 5 / 10])).
Proof. apply m_cross_entropy_finite; [reflexivity | exact probs_4615]. Qed.

(** The code on small inputs: a shape that does not broadcast, a
    probability at the end of the interval, a negative fractional label. *)
Example cross_entropy_shape_mismatch :
  cross_entropy [1; 0; 1] [1 / 2; 1 / 2] = raise ValueError.
Proof. reflexivity. Qed.

Example cross_entropy_stretches_one_label :
  cross_entropy [1] [1 / 2; 1 / 2] = cross_entropy [1; 1] [1 / 2; 1 / 2].
Proof. reflexivity. Qed.

Example cross_entropy_at_zero : cross_entropy [1] [0] = ret NonFinite.
Proof.
  unfold cross_entropy, mul_int_float, add_float, broadcast. simpl.
  destruct (Rlt_dec 0 0) as [H|_]; [lra | reflexivity].
Qed.

Example int_1_negative : int_1 (- (3 / 2)) = (-1)%Z.
Proof.
  unfold int_1. destruct (Rle_dec 0 (- (3 / 2))) as [H|_]; [lra|].
  replace (Int_part (- - (3 / 2))) with 1%Z; [reflexivity|].
  apply Int_part_spec. lra.
Qed.


Lemma cross_entropy_55 :
  cross_entropy [1; 0; 1; 1] [4 / 10; 6 / 10; 1 / 10; 5 / 10]
  = ret (Finite (- binary_sum [1; 0; 1; 1] [4 / 10; 6 / 10; 1 / 10; 5 / 10])).
Proof.
  rewrite cross_entropy_finite; [|reflexivity | exact probs_4615].
  rewrite truncated_labels by exact labels_1011. reflexivity.
Qed.

(** C1. On Y = [1, 0, 1, 1] and P = [0.4, 0.6, 0.1, 0.5], [cross_entropy]
    returns the number -sum(y_i ln(p_i) + (1 - y_i) ln(1 - p_i)), and that
    number is 4.828313737302301 to within one unit of the last printed
    decimal place. *)
Theorem cross_entropy_notebook_value :
  let Y := [1; 0; 1; 1] in
  let P := [4 / 10; 6 / 10; 1 / 10; 5 / 10] in
  cross_entropy Y P = ret (Finite (- binary_sum Y P))
  /\ Rabs (- binary_sum Y P - out_55) < tolerance.
Proof.
  intros Y P. split.
  - exact cross_entropy_55.
  - unfold Y, P. rewrite sum_55. exact ln_125_enclosure.
Qed.

(** C2. On equal-length lists whose labels are all 0 or 1, [m_cross_entropy]
    returns the same outcome as [cross_entropy]; on Y = [1, 0, 1, 1] and
    P = [0.4, 0.6, 0.1, 0.5] both return the same number, which is
    4.828313737302301 to within the tolerance. *)
Theorem m_cross_entropy_agrees_on_binary_labels :
  (forall Y P : list R,
      List.length Y = List.length P -> Forall is_label Y ->
      m_cross_entropy Y P = cross_entropy Y P)
  /\ (exists r : R,
         m_cross_entropy [1; 0; 1; 1] [4 / 10; 6 / 10; 1 / 10; 5 / 10]
         = ret (Finite r)
         /\ cross_entropy [1; 0; 1; 1] [4 / 10; 6 / 10; 1 / 10; 5 / 10]
            = ret (Finite r)
         /\ Rabs (r - out_55) < tolerance).
Proof.
  split.
  - intros Y P _ HY. rewrite cross_entropy_truncated.
    rewrite truncated_labels by exact HY. reflexivity.
  - exists (- binary_sum [1; 0; 1; 1] [4 / 10; 6 / 10; 1 / 10; 5 / 10]).
    split; [exact m_cross_entropy_55 | split].
    + exact cross_entropy_55.
    + rewrite sum_55. exact ln_125_enclosure.
Qed.

Lemma m_cross_entropy_agrees_on_binary_labels_witness :
  m_cross_entropy [1; 0] [1 / 2; 1 / 4] = cross_entropy [1; 0] [1 / 2; 1 / 4].
Proof.
  apply (proj1 m_cross_entropy_agrees_on_binary_labels).
  - reflexivity.
  - repeat (apply Forall_cons; [unfold is_label; auto|]). apply Forall_nil.
Defined.

Lemma complement_labels (Y : list R) :
  Forall is_label Y -> Forall is_label (complement Y).
Proof.
  unfold complement. induction 1 as [|y Y Hy _ IH]; simpl; constructor;
    try exact IH.
  destruct Hy as [-> | ->]; [right | left]; ring.
Qed.

Lemma complement_probs (P : list R) :
  Forall is_prob P -> Forall is_prob (complement P).
Proof.
  unfold complement. induction 1 as [|p P Hp _ IH]; simpl; constructor;
    try exact IH.
  unfold is_prob in *. lra.
Qed.

Lemma binary_sum_complement (Y P : list R) :
  binary_sum (complement Y) (complement P) = binary_sum Y P.
Proof.
  revert P. induction Y as [|y Y IH]; intros [|p P]; try reflexivity.
  simpl. rewrite IH.
  replace (1 - (1 - y)) with y by ring.
  replace (1 - (1 - p)) with p by ring.
  ring.
Qed.

(** Over the real numbers, where [1 - p] is an exact difference, the value
    is symmetric under complementing labels and probabilities together. *)
Lemma complement_symmetry_over_reals (Y P : list R) :
  List.length Y = List.length P ->
  Forall is_label Y -> Forall is_prob P ->
  cross_entropy (complement Y) (complement P) = cross_entropy Y P.
Proof.
  intros Hlen HY HP.
  rewrite (cross_entropy_finite Y P Hlen HP).
  rewrite cross_entropy_finite.
  - rewrite !truncated_labels by auto using complement_labels.
    rewrite binary_sum_complement. reflexivity.
  - unfold complement. rewrite !length_map. exact Hlen.
  - apply complement_probs. exact HP.
Qed.

Lemma binary_sum_app (Y1 Y2 P1 P2 : list R) (y p : R) :
  List.length Y1 = List.length P1 ->
  binary_sum (Y1 ++ y :: Y2) (P1 ++ p :: P2)
  = binary_sum Y1 P1 + (y * ln p + (1 - y) * ln (1 - p)) + binary_sum Y2 P2.
Proof.
  revert P1. induction Y1 as [|y1 Y1 IH]; intros [|p1 P1] Hlen;
    try discriminate; simpl.
  - ring.
  - rewrite IH by (simpl in Hlen; congruence). ring.
Qed.

Lemma truncated_app (Y1 Y2 : list R) (z : Z) :
  truncated (Y1 ++ IZR z :: Y2) = truncated Y1 ++ IZR z :: truncated Y2.
Proof.
  unfold truncated. rewrite map_app. simpl. rewrite int_1_IZR. reflexivity.
Qed.

(** The value of [cross_entropy] when the entry at one position has an
    integer label [z] and probability [p], the other entries being fixed. *)
Lemma cross_entropy_at (Y1 Y2 P1 P2 : list R) (z : Z) (p : R) :
  List.length Y1 = List.length P1 -> List.length Y2 = List.length P2 ->
  Forall is_prob P1 -> Forall is_prob P2 -> is_prob p ->
  cross_entropy (Y1 ++ IZR z :: Y2) (P1 ++ p :: P2)
  = ret (Finite (- (binary_sum (truncated Y1) P1
                    + (IZR z * ln p + (1 - IZR z) * ln (1 - p))
                    + binary_sum (truncated Y2) P2))).
Proof.
  intros H1 H2 HP1 HP2 Hp.
  rewrite cross_entropy_finite.
  - rewrite truncated_app, binary_sum_app
      by (rewrite truncated_length; exact H1).
    reflexivity.
  - rewrite !length_app. simpl. congruence.
  - apply Forall_app. split; [exact HP1 | constructor; assumption].
Qed.

Lemma ln_below (c p : R) : 0 < p -> p < exp c -> ln p < c.
Proof.
  intros Hp Hlt. rewrite <- (ln_exp c). apply ln_increasing; assumption.
Qed.

(** C4. With the other entries fixed, [cross_entropy] exceeds every bound
    as the probability of an entry labelled 1 approaches 0, and as the
    probability of an entry labelled 0 approaches 1. *)
Theorem cross_entropy_diverges (Y1 Y2 P1 P2 : list R) :
  List.length Y1 = List.length P1 -> List.length Y2 = List.length P2 ->
  Forall is_prob P1 -> Forall is_prob P2 ->
  (forall M : R, exists delta : R, 0 < delta /\
     forall p : R, 0 < p < delta ->
       exists r : R,
         cross_entropy (Y1 ++ 1 :: Y2) (P1 ++ p :: P2) = ret (Finite r)
         /\ M < r)
  /\
  (forall M : R, exists delta : R, 0 < delta /\
     forall p : R, 1 - delta < p < 1 ->
       exists r : R,
         cross_entropy (Y1 ++ 0 :: Y2) (P1 ++ p :: P2) = ret (Finite r)
         /\ M < r).
Proof.
  intros H1 H2 HP1 HP2.
  set (K := binary_sum (truncated Y1) P1 + binary_sum (truncated Y2) P2).
  split; intros M.
  - exists (Rmin 1 (exp (- (M + K)))). split.
    + apply Rmin_glb_lt; [lra | apply exp_pos].
    + intros p [Hp0 Hp].
      assert (Hp1 : p < 1) by (eapply Rlt_le_trans; [exact Hp | apply Rmin_l]).
      assert (Hpe : p < exp (- (M + K)))
        by (eapply Rlt_le_trans; [exact Hp | apply Rmin_r]).
      eexists. split.
      * apply (cross_entropy_at Y1 Y2 P1 P2 1 p); auto. split; assumption.
      * pose proof (ln_below _ _ Hp0 Hpe). unfold K in *. lra.
  - exists (Rmin 1 (exp (- (M + K)))). split.
    + apply Rmin_glb_lt; [lra | apply exp_pos].
    + intros p [Hp Hp1].
      assert (Hq1 : 1 - p < 1).
      { assert (1 - p < Rmin 1 (exp (- (M + K)))) by lra.
        eapply Rlt_le_trans; [eassumption | apply Rmin_l]. }
      assert (Hqe : 1 - p < exp (- (M + K))).
      { assert (1 - p < Rmin 1 (exp (- (M + K)))) by lra.
        eapply Rlt_le_trans; [eassumption | apply Rmin_r]. }
      eexists. split.
      * apply (cross_entropy_at Y1 Y2 P1 P2 0 p); auto. split; lra.
      * assert (Hq0 : 0 < 1 - p) by lra.
        pose proof (ln_below _ _ Hq0 Hqe). unfold K in *. lra.
Qed.

Lemma cross_entropy_diverges_witness :
  (forall M : R, exists delta : R, 0 < delta /\
     forall p : R, 0 < p < delta ->
       exists r : R,
         cross_entropy ([0] ++ 1 :: [1]) ([6 / 10] ++ p :: [1 / 2])
         = ret (Finite r) /\ M < r)
  /\
  (forall M : R, exists delta : R, 0 < delta /\
     forall p : R, 1 - delta < p < 1 ->
       exists r : R,
         cross_entropy ([0] ++ 0 :: [1]) ([6 / 10] ++ p :: [1 / 2])
         = ret (Finite r) /\ M < r).
Proof.
  apply (cross_entropy_diverges [0] [1] [6 / 10] [1 / 2]).
  - reflexivity.
  - reflexivity.
  - repeat (apply Forall_cons; [unfold is_prob; lra|]). apply Forall_nil.
  - repeat (apply Forall_cons; [unfold is_prob; lra|]). apply Forall_nil.
Defined.


Lemma ln_2_pos : 0 < ln 2.
Proof. pose proof ln_lt_2. lra. Qed.

Lemma ln_half : ln (1 / 2) = - ln 2.
Proof. replace (1 / 2) with (/ 2) by field. apply ln_Rinv. lra. Qed.

Lemma m_cross_entropy_half :
  m_cross_entropy [1 / 2] [1 / 2] = ret (Finite (ln 2)).
Proof.
  rewrite m_cross_entropy_finite.
  - simpl binary_sum. replace (1 - 1 / 2) with (1 / 2) by field.
    rewrite ln_half. do 2 f_equal. field.
  - reflexivity.
  - repeat (apply Forall_cons; [unfold is_prob; lra|]). apply Forall_nil.
Qed.

(** C5. Cross-entropy is not zero at equality: there is a list V with
    entries strictly between 0 and 1 on which [m_cross_entropy] of (V, V)
    is a nonzero number; V = [0.5] gives ln 2. *)
Theorem m_cross_entropy_not_zero_at_equality :
  m_cross_entropy [1 / 2] [1 / 2] = ret (Finite (ln 2))
  /\ exists V : list R,
       Forall is_prob V
       /\ exists r : R, m_cross_entropy V V = ret (Finite r) /\ r <> 0.
Proof.
  split; [exact m_cross_entropy_half|].
  exists [1 / 2]. split.
  - repeat (apply Forall_cons; [unfold is_prob; lra|]). apply Forall_nil.
  - exists (ln 2). split; [exact m_cross_entropy_half|].
    pose proof ln_2_pos. lra.
Qed.


Lemma ret_Finite_inj (a b : R) :
  @ret float_ (Finite a) = ret (Finite b) -> a = b.
Proof. intros H. inversion H. reflexivity. Qed.


Lemma m_cross_entropy_not_multiclass :
  m_cross_entropy [0] [1 / 2] <> ret (multiclass_formula [[0]] [[1 / 2]]).
Proof.
  rewrite m_cross_entropy_finite;
    [|reflexivity
     |repeat (apply Forall_cons; [unfold is_prob; lra|]); apply Forall_nil].
  unfold multiclass_formula. simpl multiclass_rows.
  rewrite Ln_pos by lra. simpl.
  intros H. apply ret_Finite_inj in H.
  replace (1 - 1 / 2) with (1 / 2) in H by field.
  rewrite ln_half in H. pose proof ln_2_pos. lra.
Qed.

(** C7. On equal-length lists [m_cross_entropy] returns the binary formula
    -sum(y_i ln(p_i) + (1 - y_i) ln(1 - p_i)); there are lists on which that
    is not the multi-class formula -sum_i sum_j y_ij ln(p_ij); and on
    Y = [1, 0, 2, 1], P = [0.4, 0.6, 0.1, 0.5], with a label outside {0, 1},
    it returns a number that is 7.025538314638521 to within the tolerance. *)
Theorem m_cross_entropy_is_binary_formula :
  (forall Y P : list R,
      List.length Y = List.length P ->
      m_cross_entropy Y P = ret (binary_formula Y P))
  /\ (exists Y P : list R,
         List.length Y = List.length P
         /\ m_cross_entropy Y P <> ret (multiclass_formula [Y] [P]))
  /\ (exists r : R,
         m_cross_entropy [1; 0; 2; 1] [4 / 10; 6 / 10; 1 / 10; 5 / 10]
         = ret (Finite r)
         /\ Rabs (r - out_89) < tolerance).
Proof.
  split; [|split].
  - exact m_cross_entropy_formula.
  - exists [0], [1 / 2]. split; [reflexivity|].
    exact m_cross_entropy_not_multiclass.
  - eexists. split.
    + apply m_cross_entropy_finite; [reflexivity | exact probs_4615].
    + rewrite sum_89. exact ln_1125_enclosure.
Qed.

Lemma m_cross_entropy_is_binary_formula_witness :
  m_cross_entropy [1; 0; 2; 1] [4 / 10; 6 / 10; 1 / 10; 5 / 10]
  = ret (binary_formula [1; 0; 2; 1] [4 / 10; 6 / 10; 1 / 10; 5 / 10]).
Proof.
  apply (proj1 m_cross_entropy_is_binary_formula). reflexivity.
Defined.

End CrossEntropyFacts.

(* ===================================================================== *)
(** ** The width of int64                                                 *)
(* ===================================================================== *)

Module Int64Facts.

Import NumPy CrossEntropy NumPyFacts CrossEntropyFacts Shapes Int64.
Local Open Scope R_scope.

(** The conversion truncates towards zero. *)
Lemma int_1_truncation (y : R) : truncation_of y (int_1 y).
Proof.
  unfold truncation_of, int_1. destruct (Rle_dec 0 y) as [H|H].
  - split; [intros _ | intros; lra].
    destruct (base_Int_part y) as [H1 H2]. lra.
  - split; [intros; lra | intros _].
    destruct (base_Int_part (- y)) as [H1 H2].
    rewrite opp_IZR. lra.
Qed.


Lemma IZR_min_int : IZR min_int = - 2 ^ 63.
Proof.
  unfold min_int. change (- 2 ^ 63)%Z with (-9223372036854775808)%Z. lra.
Qed.

Lemma IZR_max_int : IZR max_int = 2 ^ 63 - 1.
Proof.
  unfold max_int. change (2 ^ 63 - 1)%Z with 9223372036854775807%Z. lra.
Qed.

(** The truncation fits in int64 exactly for the numbers in range. *)
Lemma fits_in_range (y : R) : fits (int_1 y) = true <-> in_range y.
Proof.
  unfold fits, in_range. rewrite andb_true_iff, !Z.leb_le.
  destruct (int_1_truncation y) as [Hpos Hneg].
  pose proof IZR_min_int as Hmin. pose proof IZR_max_int as Hmax.
  split.
  - intros [H1 H2]. apply IZR_le in H1, H2. rewrite Hmin in H1.
    rewrite Hmax in H2.
    destruct (Rle_dec 0 y) as [H|H].
    + specialize (Hpos H). lra.
    + assert (Hy : y < 0) by lra. specialize (Hneg Hy). lra.
  - intros [H1 H2].
    destruct (Rle_dec 0 y) as [H|H].
    + specialize (Hpos H). split.
      * apply le_IZR. rewrite Hmin. lra.
      * apply Z.lt_succ_r. apply lt_IZR. unfold Z.succ.
        rewrite plus_IZR, Hmax. lra.
    + assert (Hy : y < 0) by lra. specialize (Hneg Hy). split.
      * apply Z.lt_pred_le. apply lt_IZR. unfold Z.pred.
        rewrite plus_IZR, Hmin. simpl IZR at 2. lra.
      * apply le_IZR. rewrite Hmax. lra.
Qed.

Lemma forallb_fits (Y : list R) :
  forallb fits (map int_1 Y) = true <-> Forall in_range Y.
Proof.
  induction Y as [|y Y IH]; simpl.
  - split; [constructor | reflexivity].
  - rewrite andb_true_iff, IH, fits_in_range. split.
    + intros [H1 H2]. constructor; assumption.
    + intros H. inversion H. split; assumption.
Qed.

Lemma np_int_in_range (Y : list R) :
  Forall in_range Y -> np_int_ Y = ret (map int_1 Y).
Proof.
  intros H. unfold np_int_. apply forallb_fits in H. rewrite H. reflexivity.
Qed.

Lemma np_int_out_of_range (Y : list R) :
  ~ Forall in_range Y -> np_int_ Y = raise OverflowError.
Proof.
  intros H. unfold np_int_.
  destruct (forallb fits (map int_1 Y)) eqn:E; [|reflexivity].
  apply forallb_fits in E. contradiction.
Qed.

Lemma np_int_out_of_range_raises (Y P : list R) :
  ~ Forall in_range Y -> Int64.cross_entropy Y P = raise OverflowError.
Proof.
  intros H. unfold Int64.cross_entropy.
  rewrite (np_int_out_of_range Y H). reflexivity.
Qed.



Lemma lift_bind {A B} (m : NumPy.result A) (k : A -> NumPy.result B) :
  lift (NumPy.bind m k) = bind (lift m) (fun a => lift (k a)).
Proof. destruct m as [[]|a]; reflexivity. Qed.







End Int64Facts.

(* ===================================================================== *)
(** ** cross_entropy in binary64: the complement symmetry                 *)
(* ===================================================================== *)

Module Binary64Facts.

Import Floats Int64 Binary64 NumPyFacts.
Local Open Scope float_scope.

(** Binary64 addition is commutative. *)
Lemma SFadd_comm (x y : spec_float) :
  SFadd prec emax x y = SFadd prec emax y x.
Proof.
  destruct x as [[]|[]| |sx mx ex], y as [[]|[]| |sy my ey];
    try reflexivity.
  simpl. rewrite (Z.min_comm ey ex).
  rewrite (Z.add_comm (cond_Zopp sy _)). reflexivity.
Qed.

Lemma float64_add_comm (x y : float) : x + y = y + x.
Proof.
  apply Prim2SF_inj. rewrite !add_spec. apply SFadd_comm.
Qed.

Section Cell.

Context {L : Ufuncs}.

(** The array that [np.sum] is given. *)
Lemma cross_entropy_terms (Y : list Z) (P : list float) :
  List.length Y = List.length P -> Forall is_label Y ->
  cross_entropy Y P
  = ret (- np_sum
           (NumPy.zip_with PrimFloat.add
              (NumPy.zip_with (fun y l => of_int y * l) Y (np_log P))
              (NumPy.zip_with (fun y l => of_int y * l) (rsub_int 1 Y)
                 (np_log (rsub_float 1 P))))).
Proof.
  intros Hlen HY. unfold cross_entropy, np_int_.
  assert (Hfits : forallb fits Y = true).
  { apply forallb_forall. intros y Hy.
    rewrite Forall_forall in HY. destruct (HY y Hy) as [-> | ->]; reflexivity. }
  rewrite Hfits. simpl bind. unfold mul_int_float, add_float, np_float_.
  rewrite broadcast_same_length
    by (unfold np_log; rewrite length_map; exact Hlen).
  simpl bind.
  rewrite broadcast_same_length
    by (unfold np_log, rsub_float, rsub_int; rewrite !length_map; exact Hlen).
  simpl bind.
  rewrite broadcast_same_length; [reflexivity|].
  rewrite !zip_with_length;
    unfold np_log, rsub_float, rsub_int; rewrite !length_map;
    try reflexivity; exact Hlen.
Qed.

Lemma complement_int_labels (Y : list Z) :
  Forall is_label Y -> Forall is_label (complement_int Y).
Proof.
  intros HY. unfold complement_int. apply Forall_map.
  apply Forall_impl with (2 := HY). intros y [-> | ->]; [right | left];
    reflexivity.
Qed.

(** Complementing labels and probabilities swaps the two products of each
    term. *)
Lemma terms_complement (Y : list Z) (P : list float) :
  Forall is_label Y -> Forall round_trips P ->
  NumPy.zip_with PrimFloat.add
    (NumPy.zip_with (fun y l => of_int y * l) (complement_int Y)
       (np_log (complement P)))
    (NumPy.zip_with (fun y l => of_int y * l) (rsub_int 1 (complement_int Y))
       (np_log (rsub_float 1 (complement P))))
  = NumPy.zip_with PrimFloat.add
      (NumPy.zip_with (fun y l => of_int y * l) Y (np_log P))
      (NumPy.zip_with (fun y l => of_int y * l) (rsub_int 1 Y)
         (np_log (rsub_float 1 P))).
Proof.
  intros HY. revert P.
  induction HY as [|y Y Hy _ IH]; intros P HP; [reflexivity|].
  destruct HP as [|p P Hp HP]; [reflexivity|].
  cbn [complement_int complement np_log rsub_float rsub_int map
         NumPy.zip_with].
  f_equal; [|apply (IH P HP)].
  unfold round_trips in Hp. rewrite Hp.
  destruct Hy as [-> | ->]; apply float64_add_comm.
Qed.

End Cell.

(** [ToyUfuncs] has what IEEE 754 and NumPy fix. *)
Lemma toy_ufuncs_ieee : ieee ToyUfuncs.ufuncs.
Proof.
  unfold ieee. repeat split.
  intros x H0 H1. simpl. unfold ToyUfuncs.log1.
  rewrite ltb_spec in H0. rewrite ltb_spec in H1.
  destruct (Prim2SF x) as [[]|[]| |[] m e] eqn:E;
    try discriminate H0; try discriminate H1.
  destruct (x =? 0.5); [reflexivity|].
  destruct (x <? 1); [reflexivity|]. destruct (x =? 1); reflexivity.
Qed.



Lemma complement_tiny : complement [tiny] = [1].
Proof. reflexivity. Qed.

(** C3, as the claim states it, at the label 0 and the probability 1e-17:
    the complement of the probability rounds to 1, on which [cross_entropy]
    returns nan, while on the list itself it returns a zero.  This is so for
    every [np.log] and [np.sum] that have what IEEE 754 and NumPy fix, as
    those of [ToyUfuncs] have. *)
Lemma cross_entropy_complement_rounds :
  List.length [0%Z] = List.length [tiny]
  /\ Forall is_label [0%Z] /\ Forall is_prob [tiny]
  /\ ieee ToyUfuncs.ufuncs
  /\ ~ (exists L : Ufuncs,
           ieee L
           /\ cross_entropy (complement_int [0%Z]) (complement [tiny])
              = cross_entropy [0%Z] [tiny]).
Proof.
  split; [reflexivity|].
  split; [repeat constructor|].
  split; [repeat constructor|].
  split; [exact toy_ufuncs_ieee|].
  intros (L & (H0 & H1 & Hfin & Hsum) & Heq).
  rewrite complement_tiny in Heq.
  change (complement_int [0%Z]) with [1%Z] in Heq.
  rewrite !cross_entropy_terms in Heq;
    try reflexivity;
    try (constructor; [(left + right); reflexivity | constructor]).
  cbn [np_log rsub_float rsub_int map NumPy.zip_with] in Heq.
  rewrite !Hsum in Heq.
  change (1 - 1) with 0 in Heq.
  change (1 - tiny) with 1 in Heq.
  rewrite H0, H1 in Heq.
  change (of_int 1) with 1 in Heq.
  change (of_int (wrap (1 - 1))) with 0 in Heq.
  change (of_int 0) with 0 in Heq.
  change (of_int (wrap (1 - 0))) with 1 in Heq.
  change (1 * 0 + 0 * neg_infinity) with nan in Heq.
  change (1 * 0) with 0 in Heq.
  assert (Hl : finite (log1 tiny) = true) by (apply Hfin; reflexivity).
  inversion Heq as [Hv]. apply (f_equal Prim2SF) in Hv.
  rewrite !opp_spec, add_spec, mul_spec in Hv.
  unfold finite in Hl.
  destruct (Prim2SF (log1 tiny)) as [[]|[]| |[] m e];
    try discriminate Hl; discriminate Hv.
Qed.

(** C3. On equal-length lists of labels in {0, 1} and of probabilities
    strictly between 0 and 1 whose complement [1 - p] complements back to
    [p], [cross_entropy] of the complemented labels and the complemented
    probabilities is [cross_entropy] of the lists themselves, whatever
    [np.log] and the summation order of [np.sum] are. *)
Theorem cross_entropy_complement_symmetry_in_binary64
  (L : Ufuncs) (Y : list Z) (P : list float) :
  List.length Y = List.length P ->
  Forall is_label Y -> Forall is_prob P -> Forall round_trips P ->
  cross_entropy (complement_int Y) (complement P) = cross_entropy Y P.
Proof.
  intros Hlen HY _ HP.
  rewrite (cross_entropy_terms Y P Hlen HY).
  rewrite cross_entropy_terms.
  - rewrite terms_complement by assumption. reflexivity.
  - unfold complement_int, complement. rewrite !length_map. exact Hlen.
  - apply complement_int_labels. exact HY.
Qed.

Lemma cross_entropy_complement_symmetry_in_binary64_witness :
  @cross_entropy ToyUfuncs.ufuncs (complement_int [1%Z; 0%Z; 1%Z])
    (complement [0.25; 0.5; 0.875])
  = @cross_entropy ToyUfuncs.ufuncs [1%Z; 0%Z; 1%Z] [0.25; 0.5; 0.875].
Proof.
  apply cross_entropy_complement_symmetry_in_binary64.
  - reflexivity.
  - repeat (apply Forall_cons; [unfold is_label; auto|]). apply Forall_nil.
  - repeat (apply Forall_cons; [split; reflexivity|]). apply Forall_nil.
  - repeat (apply Forall_cons; [reflexivity|]). apply Forall_nil.
Defined.

End Binary64Facts.

(* ===================================================================== *)
(** ** cross_entropy against m_cross_entropy on truncated labels          *)
(* ===================================================================== *)

Module TruncationFacts.

Import Floats.
Import NumPy CrossEntropy NumPyFacts CrossEntropyFacts Int64 Int64Facts.
Local Open Scope R_scope.





End TruncationFacts.

(* ===================================================================== *)
(** ** The notebooks' cells: runs against any library                     *)
(* ===================================================================== *)

Module PyFacts.

Import Py.

Section Run.

Context {E : Type -> Type} {W : Type}.
Variable h : handler E W.

(** Running [p] and then [f] is running [p], and [f] from where [p]
    stopped; an exception in [p] ends the run. *)
Lemma run_bind {A B} (p : prog E A) (f : A -> prog E B) (w : W) :
  run h (bind p f) w
  = match run h p w with
    | (inr a, w1, t1) =>
        let '(r, w2, t2) := run h (f a) w1 in (r, w2, t1 ++ t2)
    | (inl e, w1, t1) => (inl e, w1, t1)
    end.
Proof.
  revert w. induction p as [a | e | X e k IH]; intros w; simpl.
  - destruct (run h (f a) w) as [[r w2] t2]. reflexivity.
  - reflexivity.
  - destruct (h X e w) as [x w1]. rewrite IH.
    destruct (run h (k x) w1) as [[[e1 | a] w2] t]; [reflexivity|].
    destruct (run h (f a) w2) as [[r w3] t2]. reflexivity.
Qed.

Lemma run_call {X} (e : E X) (w : W) :
  run h (call e) w = (inr (fst (h X e w)), snd (h X e w),
                      [Entry e (fst (h X e w))]).
Proof. simpl. destruct (h X e w). reflexivity. Qed.

End Run.

Lemma for_each_cons {E : Type -> Type} {A} (x : A) (xs : list A)
  (body : A -> prog E unit) :
  for_each (x :: xs) body = bind (body x) (fun _ => for_each xs body).
Proof. reflexivity. Qed.

Lemma collect_app {A B} (f : A -> option B) (l1 l2 : list A) :
  collect f (l1 ++ l2) = collect f l1 ++ collect f l2.
Proof.
  induction l1 as [|a l1 IH]; simpl; [reflexivity|].
  destruct (f a); simpl; rewrite IH; reflexivity.
Qed.

End PyFacts.

Module SpamFacts.

Import Py Spam PyFacts.
Local Open Scope string_scope.

Section Notebook.

Context `{Library}.

Variable W : Type.
Variable h : handler libE W.

(** Answers the library one call at a time. *)
Ltac answer :=
  match goal with
  | |- context [h ?X ?e ?w] =>
      let x := fresh "x" in
      let w' := fresh "w" in
      destruct (h X e w) as [x w'];
      try match type of x with
          | unit => destruct x
          | prod _ _ => destruct x as [[[? ?] ?] ?]
          end
  end.

(** Each call of [print_metrics] ends normally after five prints, and the
    values on its four metric lines are the four metrics of its two
    arguments, with or without a model name. *)
Lemma print_metrics_run (y_true : Series) (preds : Array)
  (model_name : option string) (w : W) :
  let r := run h (print_metrics y_true preds model_name) w in
  outcome r = inr tt
  /\ List.length (printed (trace r)) = 5%nat
  /\ List.length (trace r) = 5%nat
  /\ printed_values (trace r) = four_metrics y_true preds.
Proof.
  destruct model_name as [name|]; simpl; repeat answer; simpl;
    repeat split; reflexivity.
Qed.

(** The notebook from its first cell to its last, against any library. *)
Lemma notebook_run (w : W) :
  exists (ns : namespace) (w' : W) (t : list (entry libE)),
    run h notebook w = (inr ns, w', t)
    /\ reads t = [("Data/SMSSpamCollection", tab)]
    /\ split_in t (X_train ns) (X_test ns) (y_train ns) (y_test ns)
    /\ printed_values t
       = (four_metrics (y_test ns) (predictions ns)
          ++ four_metrics (y_test ns) (bagging_pred ns)
          ++ four_metrics (y_test ns) (random_pred ns)
          ++ four_metrics (y_test ns) (ada_pred ns)
          ++ four_metrics (y_test ns) (predictions ns))%list
    /\ fitted_then_predicts t (BaggingClassifier 200)
         (training_data ns) (y_train ns) (testing_data ns) (bagging_pred ns)
    /\ fitted_then_predicts t (RandomForestClassifier 200)
         (training_data ns) (y_train ns) (testing_data ns) (random_pred ns)
    /\ fitted_then_predicts t (AdaBoostClassifier 300 (2 # 10))
         (training_data ns) (y_train ns) (testing_data ns) (ada_pred ns).
Proof.
  unfold notebook. simpl. repeat (answer; simpl).
  do 3 eexists. split; [reflexivity|].
  split; [reflexivity|].
  split; [do 2 eexists; simpl; do 6 right; left; reflexivity|].
  split; [reflexivity|].
  unfold fitted_then_predicts. simpl.
  split; [|split].
  - do 2 eexists. exists 17%nat, 20%nat, 23%nat.
    repeat split; try lia; reflexivity.
  - do 2 eexists. exists 18%nat, 21%nat, 24%nat.
    repeat split; try lia; reflexivity.
  - do 2 eexists. exists 19%nat, 22%nat, 25%nat.
    repeat split; try lia; reflexivity.
Qed.

(** C8. Every call of [print_metrics] ends after five prints whose four
    metric lines show accuracy, precision, recall and F1 of the given
    (y_true, preds), the same values with and without a model name; and a
    run of the notebook prints, for the bagging, the random-forest and the
    AdaBoost classifier, those four metrics of the held-out labels [y_test]
    and of the predictions of that classifier, which was fitted to the
    training data before it predicted. *)
Theorem print_metrics_scores_each_ensemble (w : W) :
  (forall (y_true : Series) (preds : Array) (model_name : option string)
          (w0 : W),
      let r := run h (print_metrics y_true preds model_name) w0 in
      outcome r = inr tt
      /\ List.length (printed (trace r)) = 5%nat
      /\ printed_values (trace r) = four_metrics y_true preds)
  /\ (forall (y_true : Series) (preds : Array) (name : string) (w0 : W),
         printed_values (trace (run h (print_metrics y_true preds (Some name)) w0))
         = printed_values (trace (run h (print_metrics y_true preds None) w0)))
  /\ (exists (ns : namespace) (w' : W) (t : list (entry libE)),
         run h notebook w = (inr ns, w', t)
         /\ split_in t (X_train ns) (X_test ns) (y_train ns) (y_test ns)
         /\ printed_values t
            = (four_metrics (y_test ns) (predictions ns)
               ++ four_metrics (y_test ns) (bagging_pred ns)
               ++ four_metrics (y_test ns) (random_pred ns)
               ++ four_metrics (y_test ns) (ada_pred ns)
               ++ four_metrics (y_test ns) (predictions ns))%list
         /\ fitted_then_predicts t (BaggingClassifier 200)
              (training_data ns) (y_train ns) (testing_data ns)
              (bagging_pred ns)
         /\ fitted_then_predicts t (RandomForestClassifier 200)
              (training_data ns) (y_train ns) (testing_data ns)
              (random_pred ns)
         /\ fitted_then_predicts t (AdaBoostClassifier 300 (2 # 10))
              (training_data ns) (y_train ns) (testing_data ns)
              (ada_pred ns)).
Proof.
  split; [|split].
  - intros y_true preds model_name w0.
    destruct (print_metrics_run y_true preds model_name w0)
      as (Ho & Hp & _ & Hv).
    repeat split; assumption.
  - intros y_true preds name w0.
    destruct (print_metrics_run y_true preds (Some name) w0)
      as (_ & _ & _ & ->).
    destruct (print_metrics_run y_true preds None w0) as (_ & _ & _ & ->).
    reflexivity.
  - destruct (notebook_run w)
      as (ns & w' & t & Hrun & _ & Hsplit & Hvals & Hb & Hr & Ha).
    exists ns, w', t. repeat split; assumption.
Qed.

End Notebook.

End SpamFacts.

Module TrainingFacts.

Import Py Training PyFacts.
Local Open Scope string_scope.

Section Cell.

Context `{Library}.
Variable W : Type.
Variable h : handler torchE W.

Section Loop.

Variables (model : Model) (criterion : Criterion) (optimizer : Optimizer).

Ltac answer :=
  match goal with
  | |- context [h ?X ?e ?w] =>
      let x := fresh "x" in
      let w' := fresh "w" in
      destruct (h X e w) as [x w'];
      try match type of x with unit => destruct x end
  end.

(** One batch: the seven calls, in order, and no exception. *)
Lemma batch_body_run (running_loss : pyfloat) (b : Tensor * Tensor) (w : W) :
  exists (r : pyfloat) (w' : W) (t : list (entry torchE)),
    run h (batch_body model criterion optimizer running_loss b) w
    = (inr r, w', t)
    /\ batch_calls model criterion optimizer b t.
Proof.
  destruct b as [images labels]. unfold batch_body. simpl.
  repeat (answer; simpl).
  do 3 eexists. split; [reflexivity|].
  unfold batch_calls. simpl. do 4 eexists. reflexivity.
Qed.

(** The inner loop: the calls of each batch the pass yielded, one batch
    after the other. *)
Lemma batches_loop_run (batches : list (Tensor * Tensor)) :
  forall (running_loss : pyfloat) (w : W),
  exists (r : pyfloat) (w' : W) (ts : list (list (entry torchE))),
    run h (batches_loop model criterion optimizer running_loss batches) w
    = (inr r, w', List.concat ts)
    /\ Forall2 (batch_calls model criterion optimizer) batches ts.
Proof.
  induction batches as [|b rest IH]; intros running_loss w.
  - exists running_loss, w, []. split; [reflexivity | constructor].
  - simpl batches_loop. rewrite run_bind.
    destruct (batch_body_run running_loss b w) as (r1 & w1 & t1 & -> & Hb).
    destruct (IH r1 w1) as (r2 & w2 & ts & -> & Hrest).
    exists r2, w2, (t1 :: ts). split; [reflexivity|].
    constructor; assumption.
Qed.

(** One epoch, when the loader is not empty. *)
Lemma epoch_body_run (e : nat) (w : W) :
  loader_nonempty h ->
  exists (w' : W) (t : list (entry torchE)),
    run h (epoch_body model criterion optimizer e) w = (inr tt, w', t)
    /\ epoch_calls model criterion optimizer t.
Proof.
  intros Hlen. unfold epoch_body.
  rewrite run_bind, run_call.
  destruct (h _ (iterate trainloader) w) as [batches w1]. cbn [fst snd].
  rewrite run_bind.
  destruct (batches_loop_run batches zero w1) as (r & w2 & ts & -> & Hts).
  rewrite run_bind, run_call.
  pose proof (Hlen w2) as Hn.
  destruct (h _ (len trainloader) w2) as [n w3]. cbn [fst snd] in *.
  destruct n as [|n]; [contradiction|].
  simpl. destruct (h _ (print _) w3) as [[] w4].
  do 2 eexists. split; [reflexivity|].
  exists batches, ts, (S n). eexists. split; [exact Hts|].
  reflexivity.
Qed.

(** The outer loop over any range. *)
Lemma epochs_run (es : list nat) :
  loader_nonempty h ->
  forall w : W,
  exists (w' : W) (ts : list (list (entry torchE))),
    run h (for_each es (epoch_body model criterion optimizer)) w
    = (inr tt, w', List.concat ts)
    /\ List.length ts = List.length es
    /\ Forall (epoch_calls model criterion optimizer) ts.
Proof.
  intros Hlen. induction es as [|e es IH]; intros w.
  - exists w, []. repeat split. constructor.
  - rewrite for_each_cons, run_bind.
    destruct (epoch_body_run e w Hlen) as (w1 & t1 & -> & He).
    destruct (IH w1) as (w2 & ts & -> & Hl & Hts).
    exists w2, (t1 :: ts). split; [reflexivity|]. split.
    + simpl. congruence.
    + constructor; assumption.
Qed.

(** A batch makes no pass of its own, so an epoch makes exactly one. *)
Lemma batch_calls_passes (b : Tensor * Tensor) (t : list (entry torchE)) :
  batch_calls model criterion optimizer b t -> filter is_pass t = [].
Proof. intros (flat & output & loss & x & ->). reflexivity. Qed.

Lemma batches_passes (batches : list (Tensor * Tensor))
  (ts : list (list (entry torchE))) :
  Forall2 (batch_calls model criterion optimizer) batches ts ->
  filter is_pass (List.concat ts) = [].
Proof.
  induction 1 as [|b t batches ts Hb _ IH]; [reflexivity|].
  simpl. rewrite filter_app, IH, (batch_calls_passes b t Hb). reflexivity.
Qed.

Lemma epoch_calls_passes (t : list (entry torchE)) :
  epoch_calls model criterion optimizer t -> passes t = 1%nat.
Proof.
  intros (batches & ts & n & line & Hts & ->). unfold passes. simpl.
  rewrite filter_app, (batches_passes batches ts Hts). reflexivity.
Qed.

Lemma epochs_passes (es : list (list (entry torchE))) :
  Forall (epoch_calls model criterion optimizer) es ->
  passes (List.concat es) = List.length es.
Proof.
  induction 1 as [|t es Ht _ IH]; [reflexivity|].
  unfold passes in *. simpl. rewrite filter_app, length_app, IH.
  fold (passes t). rewrite (epoch_calls_passes t Ht). reflexivity.
Qed.

End Loop.

Lemma training_calls_passes (n : nat) (t : list (entry torchE)) :
  training_calls n t -> passes t = n.
Proof.
  intros (m & c & p & o & es & Hl & Hes & ->).
  unfold passes. rewrite filter_app, length_app. simpl.
  fold (passes (List.concat es)).
  rewrite (epochs_passes m c o es Hes). exact Hl.
Qed.

(** The cell set-up: the four constructor calls, then the epochs. *)
Lemma training_cell_run (w : W) :
  loader_nonempty h ->
  exists (w' : W) (t : list (entry torchE)),
    run h training_cell w = (inr tt, w', t) /\ training_calls epochs t.
Proof.
  intros Hlen. unfold training_cell.
  rewrite run_bind, run_call.
  destruct (h _ (Sequential layers) w) as [m w1]. cbn [fst snd].
  rewrite run_bind, run_call.
  destruct (h _ NLLLoss w1) as [c w2]. cbn [fst snd].
  rewrite run_bind, run_call.
  destruct (h _ (parameters m) w2) as [p w3]. cbn [fst snd].
  rewrite run_bind, run_call.
  destruct (h _ (SGD p (3 # 1000)) w3) as [o w4]. cbn [fst snd].
  destruct (epochs_run m c o (range epochs) Hlen w4)
    as (w5 & ts & -> & Hl & Hts).
  do 2 eexists. split; [reflexivity|].
  exists m, c, p, o, ts. split; [|split].
  - rewrite Hl. unfold range. apply length_seq.
  - exact Hts.
  - reflexivity.
Qed.

(** C9. Against a library whose loader is not empty, the training cell
    ends normally; the epoch count is 5 and the run makes exactly 5 passes
    over the training loader; and every batch of every pass makes, in this
    order, the calls: flatten the images, zero the gradients, forward pass
    through the model built from the fixed layer stack, the loss of the
    NLLLoss criterion, [loss.backward()], [optimizer.step()], and
    [loss.item()]. *)
Theorem training_cell_five_epochs (w : W) :
  loader_nonempty h ->
  epochs = 5%nat
  /\ exists (w' : W) (t : list (entry torchE)),
       run h training_cell w = (inr tt, w', t)
       /\ passes t = 5%nat
       /\ training_calls 5 t.
Proof.
  intros Hlen. split; [reflexivity|].
  destruct (training_cell_run w Hlen) as (w' & t & Hrun & Ht).
  exists w', t. split; [exact Hrun|]. split; [|exact Ht].
  apply training_calls_passes. exact Ht.
Qed.

End Cell.

(** The cell run on the one-batch library: four calls to set up, then five
    epochs of one pass, seven calls for the batch, [len] and [print]. *)
Example toy_training_run :
  outcome (run Toy.torch_handler (@training_cell Toy.torch) tt) = inr tt
  /\ List.length (trace (run Toy.torch_handler (@training_cell Toy.torch) tt))
     = (4 + 5 * (1 + 7 + 2))%nat.
Proof. split; reflexivity. Qed.

(** The theorem at work on the one-batch library. *)
Lemma training_cell_five_epochs_witness :
  @epochs = 5%nat
  /\ exists (w' : unit) (t : list (entry (@torchE Toy.torch))),
       run Toy.torch_handler (@training_cell Toy.torch) tt = (inr tt, w', t)
       /\ passes t = 5%nat
       /\ @training_calls Toy.torch 5 t.
Proof.
  apply (@training_cell_five_epochs Toy.torch unit Toy.torch_handler tt).
  intros w. simpl. discriminate.
Defined.

End TrainingFacts.

Module RegularizationFacts.

Import Py Regularization PyFacts.
Local Open Scope string_scope.

Section Notebook.

Context `{Library}.
Variable W : Type.
Variable h : handler libE W.

Lemma iloc_last_nil : iloc_last [] = Raise IndexError.
Proof. reflexivity. Qed.

Lemma iloc_last_cons (c : column) (df : frame) :
  iloc_last (c :: df) = Ret (last (c :: df) []).
Proof.
  revert c. induction df as [|c' df IH]; intros c; [reflexivity|].
  change (iloc_last (c :: c' :: df)) with (iloc_last (c' :: df)).
  rewrite IH. reflexivity.
Qed.

(** With seven columns, the split is the first six and the seventh. *)
Lemma seven_columns (df : frame) :
  List.length df = 7%nat ->
  iloc_but_last df = firstn 6 df
  /\ exists c : column, iloc_last df = Ret c /\ nth_error df 6 = Some c.
Proof.
  intros Hlen.
  destruct df as [|c1 [|c2 [|c3 [|c4 [|c5 [|c6 [|c7 [|c8 df]]]]]]]];
    try discriminate Hlen.
  split; [reflexivity|]. exists c7. split; reflexivity.
Qed.

(** The file is read by the first call and by no other, whatever the
    frame it yields. *)
Lemma notebook_reads (w : W) :
  reads (trace (run h notebook w))
  = [("testData/regularizationData.csv", ",")].
Proof.
  unfold notebook. simpl.
  destruct (h _ (read_csv _ _ _) w) as [df w1].
  destruct df as [|c df].
  - reflexivity.
  - rewrite run_bind, iloc_last_cons. simpl.
    destruct (h _ Lasso w1) as [m w2].
    destruct (h _ (fit _ _ _) w2) as [m' w3].
    destruct (h _ (coef_ _) w3) as [k w4].
    reflexivity.
Qed.

(** With a frame of seven columns the notebook ends normally, [X] holding
    the first six columns and [y] the seventh. *)
Lemma notebook_split (w : W) :
  let df := fst (h _ (read_csv "testData/regularizationData.csv"
                        default_sep None) w) in
  List.length df = 7%nat ->
  exists ns : namespace,
    outcome (run h notebook w) = inr ns
    /\ train_data ns = df
    /\ X ns = firstn 6 df
    /\ nth_error df 6 = Some (y ns).
Proof.
  intros df Hlen. subst df. unfold notebook. simpl.
  destruct (h _ (read_csv _ _ _) w) as [df w1]. simpl in Hlen.
  destruct (seven_columns df Hlen) as (HX & c & Hc & Hnth).
  rewrite run_bind, Hc. simpl.
  destruct (h _ Lasso w1) as [m w2].
  destruct (h _ (fit _ _ _) w2) as [m' w3].
  destruct (h _ (coef_ _) w3) as [k w4].
  eexists. split; [reflexivity|]. simpl.
  repeat split; assumption.
Qed.

End Notebook.

End RegularizationFacts.

(* ===================================================================== *)
(** ** The notebooks' input files                                         *)
(* ===================================================================== *)

Module InputFacts.

Import Py PyFacts.
Local Open Scope string_scope.

(** C10. Each notebook reads its input file exactly once in a run.  The
    regularization notebook makes one comma-separated read of its data
    file and no other; when the frame has seven columns, [X] is the first
    six and [y] the seventh.  The spam notebook makes one tab-separated
    read of the SMS collection and no other. *)
Theorem each_input_read_once :
  (forall (L : Regularization.Library) (W : Type)
          (h : handler Regularization.libE W) (w : W),
      Regularization.reads (trace (run h Regularization.notebook w))
      = [("testData/regularizationData.csv", ",")]
      /\ (let df := fst (h _ (Regularization.read_csv
                               "testData/regularizationData.csv" "," None) w) in
          List.length df = 7%nat ->
          exists ns : Regularization.namespace,
            outcome (run h Regularization.notebook w) = inr ns
            /\ Regularization.train_data ns = df
            /\ Regularization.X ns = firstn 6 df
            /\ nth_error df 6 = Some (Regularization.y ns)))
  /\ (forall (L : Spam.Library) (W : Type) (h : handler Spam.libE W) (w : W),
         Spam.reads (trace (run h Spam.notebook w))
         = [("Data/SMSSpamCollection", tab)]).
Proof.
  split.
  - intros L W h w. split.
    + apply RegularizationFacts.notebook_reads.
    + apply RegularizationFacts.notebook_split.
  - intros L W h w.
    destruct (SpamFacts.notebook_run W h w) as (ns & w' & t & -> & Hreads & _).
    exact Hreads.
Qed.

(** The regularization notebook run on a file of seven columns. *)
Example toy_regularization_run :
  exists ns : @Regularization.namespace Toy.pandas,
    outcome (run Toy.pandas_handler (@Regularization.notebook Toy.pandas) tt)
    = inr ns
    /\ Regularization.X ns = [[1]; [2]; [3]; [4]; [5]; [6]]%nat
    /\ Regularization.y ns = [7]%nat.
Proof. eexists. repeat split. Qed.

(** The theorem at work on a file of seven columns. *)
Lemma each_input_read_once_witness :
  exists ns : @Regularization.namespace Toy.pandas,
    outcome (run Toy.pandas_handler (@Regularization.notebook Toy.pandas) tt)
    = inr ns
    /\ Regularization.train_data ns = Toy.seven_columns_frame
    /\ Regularization.X ns = firstn 6 Toy.seven_columns_frame
    /\ nth_error Toy.seven_columns_frame 6 = Some (Regularization.y ns).
Proof.
  apply (proj2 (proj1 each_input_read_once Toy.pandas unit
                  Toy.pandas_handler tt)).
  reflexivity.
Defined.

End InputFacts.

(* ===================================================================== *)
(** * Further properties of the notebooks' code                           *)
(* ===================================================================== *)

(* ===================================================================== *)
(** ** Broadcasting                                                       *)
(* ===================================================================== *)

Module BroadcastFacts.

Import NumPy NumPyFacts Shapes.

(** When a binary operator raises: the lengths differ and neither is 1. *)
Lemma broadcast_raises {A B C} (f : A -> B -> C) (a : list A) (b : list B) :
  broadcast f a b = raise ValueError
  <-> List.length a <> List.length b
      /\ List.length a <> 1%nat /\ List.length b <> 1%nat.
Proof.
  unfold broadcast.
  destruct (Nat.eqb_spec (List.length a) (List.length b)) as [Heq|Hne].
  - split; [discriminate | intros [Hc _]; contradiction].
  - destruct a as [|x [|x' a]]; destruct b as [|y [|y' b]]; simpl in *;
      split; try discriminate; try (intros (_ & H1 & H2); congruence);
      try (intros _; repeat split; congruence); try lia.
Qed.

Lemma broadcast_length {A B C} (f : A -> B -> C) (a : list A) (b : list B)
  (c : list C) :
  broadcast f a b = ret c ->
  List.length c = shape (List.length a) (List.length b).
Proof.
  unfold broadcast, shape.
  destruct (Nat.eqb_spec (List.length a) (List.length b)) as [Heq|Hne].
  - intros Hc. inversion Hc. apply zip_with_length. exact Heq.
  - destruct a as [|x [|x' a]]; destruct b as [|y [|y' b]];
      simpl in *; intros Hc; inversion Hc; simpl; rewrite ?length_map;
      try reflexivity; try lia.
Qed.





End BroadcastFacts.


(* ===================================================================== *)
(** ** The two cross-entropy functions on any lists                       *)
(* ===================================================================== *)

Module CrossEntropyMore.

Import NumPy CrossEntropy NumPyFacts CrossEntropyFacts Shapes BroadcastFacts.
Local Open Scope R_scope.

Lemma m_cross_entropy_cases (Y P : list R) :
  (mismatch Y P /\ m_cross_entropy Y P = raise ValueError)
  \/ (~ mismatch Y P /\ exists v : float_, m_cross_entropy Y P = ret v).
Proof.
  unfold m_cross_entropy, mul_float, add_float, mismatch.
  destruct (broadcast mul (np_float_ Y) (np_log (np_float_ P)))
    as [[]|a] eqn:Ea.
  - left. split; [|reflexivity].
    apply broadcast_raises in Ea.
    unfold np_float_, np_log in Ea. rewrite !length_map in Ea. exact Ea.
  - right.
    assert (Hok : ~ (List.length Y <> List.length P
                     /\ List.length Y <> 1%nat /\ List.length P <> 1%nat)).
    { intros Hm.
      assert (Hr : broadcast mul (np_float_ Y) (np_log (np_float_ P))
                   = raise ValueError).
      { apply broadcast_raises. unfold np_float_, np_log.
        rewrite !length_map. exact Hm. }
      rewrite Hr in Ea. discriminate Ea. }
    split; [exact Hok|].
    destruct (broadcast mul (rsub_float 1 (np_float_ Y))
                (np_log (rsub_float 1 (np_float_ P)))) as [[]|b] eqn:Eb.
    + exfalso. apply Hok. apply broadcast_raises in Eb.
      unfold np_float_, np_log, rsub_float in Eb.
      rewrite !length_map in Eb. exact Eb.
    + simpl bind.
      apply broadcast_length in Ea. apply broadcast_length in Eb.
      unfold np_float_, np_log, rsub_float in Ea, Eb.
      rewrite !length_map in Ea. rewrite !length_map in Eb.
      rewrite broadcast_same_length by congruence.
      simpl. eexists. reflexivity.
Qed.






Lemma binary_term_not_prob (y p : R) :
  ~ is_prob p -> binary_term y p = NonFinite.
Proof.
  intros Hp. unfold binary_term, Ln.
  destruct (Rlt_dec 0 p) as [H0|H0]; [|reflexivity].
  destruct (Rlt_dec 0 (1 - p)) as [H1|H1]; [|reflexivity].
  exfalso. apply Hp. unfold is_prob. lra.
Qed.

Lemma add_NonFinite_r (a : float_) : add a NonFinite = NonFinite.
Proof. destruct a; reflexivity. Qed.

(** On equal lengths, one probability outside (0, 1) is enough to make
    the sum non-finite. *)
Lemma binary_terms_not_finite (Y P : list R) :
  List.length Y = List.length P -> ~ Forall is_prob P ->
  binary_terms Y P = NonFinite.
Proof.
  revert P. induction Y as [|y Y IH]; intros [|p P] Hlen Hn;
    try discriminate Hlen.
  - exfalso. apply Hn. constructor.
  - simpl.
    destruct (Rlt_dec 0 p) as [H0|H0];
      [destruct (Rlt_dec p 1) as [H1|H1]|].
    + rewrite IH; [apply add_NonFinite_r | simpl in Hlen; congruence|].
      intros HP. apply Hn. constructor; [split; assumption | exact HP].
    + rewrite binary_term_not_prob by (unfold is_prob; lra). reflexivity.
    + rewrite binary_term_not_prob by (unfold is_prob; lra). reflexivity.
Qed.

(** X3. On equal-length lists with labels in {0, 1}, both functions return
    a finite number exactly when every probability lies strictly between 0
    and 1; otherwise they return a value that is not finite. *)
Theorem cross_entropy_finite_iff_probabilities (Y P : list R) :
  List.length Y = List.length P -> Forall is_label Y ->
  ((exists r : R, cross_entropy Y P = ret (Finite r)) <-> Forall is_prob P)
  /\ ((exists r : R, m_cross_entropy Y P = ret (Finite r)) <-> Forall is_prob P)
  /\ (~ Forall is_prob P ->
      cross_entropy Y P = ret NonFinite /\ m_cross_entropy Y P = ret NonFinite).
Proof.
  intros Hlen _.
  assert (Hm : forall Y0 : list R, List.length Y0 = List.length P ->
             ~ Forall is_prob P -> m_cross_entropy Y0 P = ret NonFinite).
  { intros Y0 H0 Hn. rewrite m_cross_entropy_formula by exact H0.
    unfold binary_formula. rewrite binary_terms_not_finite by assumption.
    reflexivity. }
  assert (Hdec : forall Y0 : list R, List.length Y0 = List.length P ->
             ((exists r : R, m_cross_entropy Y0 P = ret (Finite r))
              <-> Forall is_prob P)).
  { intros Y0 H0. split.
    - intros [r Hr].
      destruct (Forall_dec is_prob) with (l := P) as [HP|HP]; [|exact HP|].
      + intros p. unfold is_prob.
        destruct (Rlt_dec 0 p); [destruct (Rlt_dec p 1)|];
          [left; split; assumption | right; lra | right; lra].
      + rewrite (Hm Y0 H0 HP) in Hr. discriminate Hr.
    - intros HP. eexists. apply m_cross_entropy_finite; assumption. }
  assert (Ht : List.length (truncated Y) = List.length P)
    by (rewrite truncated_length; exact Hlen).
  split; [|split].
  - rewrite cross_entropy_truncated. apply Hdec. exact Ht.
  - apply Hdec. exact Hlen.
  - intros Hn. split; [rewrite cross_entropy_truncated|]; apply Hm; assumption.
Qed.

Lemma cross_entropy_finite_iff_probabilities_witness :
  ((exists r : R, cross_entropy [1; 0] [1; 1 / 2] = ret (Finite r))
   <-> Forall is_prob [1; 1 / 2])
  /\ ((exists r : R, m_cross_entropy [1; 0] [1; 1 / 2] = ret (Finite r))
      <-> Forall is_prob [1; 1 / 2])
  /\ (~ Forall is_prob [1; 1 / 2] ->
      cross_entropy [1; 0] [1; 1 / 2] = ret NonFinite
      /\ m_cross_entropy [1; 0] [1; 1 / 2] = ret NonFinite).
Proof.
  apply (cross_entropy_finite_iff_probabilities [1; 0] [1; 1 / 2]).
  - reflexivity.
  - repeat (apply Forall_cons; [unfold is_label; auto|]). apply Forall_nil.
Defined.

Lemma ln_neg (x : R) : 0 < x < 1 -> ln x < 0.
Proof. intros [H0 H1]. rewrite <- ln_1. apply ln_increasing; assumption. Qed.

Lemma binary_sum_nonpos (Y P : list R) :
  Forall is_label Y -> Forall is_prob P -> binary_sum Y P <= 0.
Proof.
  intros HY. revert P. induction HY as [|y Y Hy _ IH]; intros P HP.
  - simpl. lra.
  - destruct HP as [|p P Hp HP]; [simpl; lra|].
    simpl. specialize (IH P HP).
    assert (ln p < 0) by (apply ln_neg; exact Hp).
    assert (ln (1 - p) < 0) by (apply ln_neg; unfold is_prob in Hp; lra).
    destruct Hy as [-> | ->]; lra.
Qed.

(** X4. On equal-length lists of labels in {0, 1} and probabilities strictly
    between 0 and 1, [cross_entropy] returns a finite number that is never
    negative. *)
Theorem cross_entropy_nonnegative (Y P : list R) :
  List.length Y = List.length P ->
  Forall is_label Y -> Forall is_prob P ->
  exists r : R, cross_entropy Y P = ret (Finite r) /\ 0 <= r.
Proof.
  intros Hlen HY HP. exists (- binary_sum Y P). split.
  - rewrite cross_entropy_finite by assumption.
    rewrite truncated_labels by exact HY. reflexivity.
  - pose proof (binary_sum_nonpos Y P HY HP). lra.
Qed.

Lemma cross_entropy_nonnegative_witness :
  exists r : R,
    cross_entropy [1; 0] [1 / 2; 1 / 4] = ret (Finite r) /\ 0 <= r.
Proof.
  apply cross_entropy_nonnegative.
  - reflexivity.
  - repeat (apply Forall_cons; [unfold is_label; auto|]). apply Forall_nil.
  - repeat (apply Forall_cons; [unfold is_prob; lra|]). apply Forall_nil.
Defined.


(** X7. With labels in {0, 1} and the other entries fixed, raising the
    probability of an entry labelled 1 does not raise [cross_entropy], and
    raising the probability of an entry labelled 0 does not lower it. *)
Theorem cross_entropy_monotone (Y1 Y2 P1 P2 : list R) (p p' : R) :
  List.length Y1 = List.length P1 -> List.length Y2 = List.length P2 ->
  Forall is_label Y1 -> Forall is_label Y2 ->
  Forall is_prob P1 -> Forall is_prob P2 ->
  is_prob p -> is_prob p' -> p < p' ->
  (exists r r' : R,
      cross_entropy (Y1 ++ 1 :: Y2) (P1 ++ p :: P2) = ret (Finite r)
      /\ cross_entropy (Y1 ++ 1 :: Y2) (P1 ++ p' :: P2) = ret (Finite r')
      /\ r' <= r)
  /\ (exists r r' : R,
         cross_entropy (Y1 ++ 0 :: Y2) (P1 ++ p :: P2) = ret (Finite r)
         /\ cross_entropy (Y1 ++ 0 :: Y2) (P1 ++ p' :: P2) = ret (Finite r')
         /\ r <= r').
Proof.
  intros H1 H2 _ _ HP1 HP2 Hp Hp' Hlt.
  assert (Hln : ln p < ln p') by (apply ln_increasing; [apply Hp | exact Hlt]).
  assert (Hln1 : ln (1 - p') < ln (1 - p)).
  { apply ln_increasing; unfold is_prob in *; lra. }
  split; do 2 eexists; (split; [|split]).
  - apply (cross_entropy_at Y1 Y2 P1 P2 1 p); assumption.
  - apply (cross_entropy_at Y1 Y2 P1 P2 1 p'); assumption.
  - lra.
  - apply (cross_entropy_at Y1 Y2 P1 P2 0 p); assumption.
  - apply (cross_entropy_at Y1 Y2 P1 P2 0 p'); assumption.
  - lra.
Qed.

Lemma cross_entropy_monotone_witness :
  (exists r r' : R,
      cross_entropy ([0] ++ 1 :: [1]) ([1 / 2] ++ 1 / 4 :: [1 / 2])
      = ret (Finite r)
      /\ cross_entropy ([0] ++ 1 :: [1]) ([1 / 2] ++ 3 / 4 :: [1 / 2])
         = ret (Finite r')
      /\ r' <= r)
  /\ (exists r r' : R,
         cross_entropy ([0] ++ 0 :: [1]) ([1 / 2] ++ 1 / 4 :: [1 / 2])
         = ret (Finite r)
         /\ cross_entropy ([0] ++ 0 :: [1]) ([1 / 2] ++ 3 / 4 :: [1 / 2])
            = ret (Finite r')
         /\ r <= r').
Proof.
  apply (cross_entropy_monotone [0] [1] [1 / 2] [1 / 2]).
  - reflexivity.
  - reflexivity.
  - repeat (apply Forall_cons; [unfold is_label; auto|]). apply Forall_nil.
  - repeat (apply Forall_cons; [unfold is_label; auto|]). apply Forall_nil.
  - repeat (apply Forall_cons; [unfold is_prob; lra|]). apply Forall_nil.
  - repeat (apply Forall_cons; [unfold is_prob; lra|]). apply Forall_nil.
  - unfold is_prob; lra.
  - unfold is_prob; lra.
  - lra.
Defined.

Lemma int_1_small (y : R) : -1 < y < 1 -> int_1 y = 0%Z.
Proof.
  intros [Hlo Hhi]. unfold int_1. destruct (Rle_dec 0 y) as [H|H].
  - symmetry. apply Int_part_spec. lra.
  - replace (Int_part (- y)) with 0%Z; [reflexivity|].
    apply Int_part_spec. lra.
Qed.

(** X8. [cross_entropy] counts every label strictly between -1 and 1 as the
    label 0: on such labels it returns what it returns on zeros. *)
Theorem cross_entropy_fractional_labels_are_zero (Y P : list R) :
  Forall (fun y => -1 < y < 1) Y ->
  cross_entropy Y P = cross_entropy (repeat 0 (List.length Y)) P.
Proof.
  intros HY. rewrite !cross_entropy_truncated. f_equal.
  unfold truncated. induction HY as [|y Y Hy _ IH]; simpl; [reflexivity|].
  rewrite IH, (int_1_small y Hy), (int_1_IZR 0). reflexivity.
Qed.

Lemma cross_entropy_fractional_labels_are_zero_witness :
  cross_entropy [9 / 10; - (1 / 2)] [1 / 4; 1 / 2]
  = cross_entropy (repeat 0 (List.length [9 / 10; - (1 / 2)])) [1 / 4; 1 / 2].
Proof.
  apply cross_entropy_fractional_labels_are_zero.
  repeat (apply Forall_cons; [lra|]). apply Forall_nil.
Defined.

End CrossEntropyMore.

(* ===================================================================== *)
(** ** The exceptions of the two cross-entropy functions                  *)
(* ===================================================================== *)

Module Int64More.

Import NumPy CrossEntropy NumPyFacts CrossEntropyFacts Shapes BroadcastFacts.
Import Int64 Int64Facts.
Local Open Scope R_scope.

(** With every label inside int64, [cross_entropy] raises ValueError on a
    mismatch and returns a value otherwise. *)
Lemma cross_entropy_cases (Y P : list R) :
  Forall in_range Y ->
  (mismatch Y P /\ Int64.cross_entropy Y P = raise ValueError)
  \/ (~ mismatch Y P /\ exists v : float_, Int64.cross_entropy Y P = ret v).
Proof.
  intros HY. unfold Int64.cross_entropy. rewrite (np_int_in_range Y HY).
  simpl bind. unfold mul_int_float, add_float, mismatch.
  destruct (broadcast (fun y l => mul (of_int y) l) (map int_1 Y)
              (np_log (np_float_ P))) as [[]|a] eqn:Ea.
  - left. split; [|reflexivity].
    apply broadcast_raises in Ea.
    unfold np_float_, np_log in Ea. rewrite !length_map in Ea. exact Ea.
  - right.
    assert (Hok : ~ (List.length Y <> List.length P
                     /\ List.length Y <> 1%nat /\ List.length P <> 1%nat)).
    { intros Hm.
      assert (Hr : broadcast (fun y l => mul (of_int y) l) (map int_1 Y)
                     (np_log (np_float_ P)) = NumPy.raise NumPy.ValueError).
      { apply broadcast_raises. unfold np_float_, np_log.
        rewrite !length_map. exact Hm. }
      rewrite Hr in Ea. discriminate Ea. }
    split; [exact Hok|].
    destruct (broadcast (fun y l => mul (of_int y) l)
                (rsub_int 1 (map int_1 Y))
                (np_log (rsub_float 1 (np_float_ P)))) as [[]|b] eqn:Eb.
    + exfalso. apply Hok. apply broadcast_raises in Eb.
      unfold np_float_, np_log, rsub_float, rsub_int in Eb.
      rewrite !length_map in Eb. exact Eb.
    + simpl.
      apply broadcast_length in Ea. apply broadcast_length in Eb.
      unfold np_float_, np_log, rsub_float, rsub_int in Ea, Eb.
      rewrite !length_map in Ea. rewrite !length_map in Eb.
      rewrite broadcast_same_length by congruence.
      simpl. eexists. reflexivity.
Qed.

(** X1. On probabilities that float64 holds: [cross_entropy] raises
    OverflowError exactly when a label, truncated, lies outside int64; with
    every label inside, it raises ValueError exactly when the two lists
    differ in length and neither has length one, and returns a value
    otherwise.  [m_cross_entropy], on labels that float64 holds, raises
    ValueError on the same lengths and returns a value otherwise. *)
Theorem cross_entropy_exceptions (Y P : list R) :
  Forall float_range P ->
  (Int64.cross_entropy Y P = raise OverflowError <-> ~ Forall in_range Y)
  /\ (Int64.cross_entropy Y P = raise ValueError
      <-> Forall in_range Y /\ mismatch Y P)
  /\ (Forall in_range Y -> ~ mismatch Y P ->
      exists v : float_, Int64.cross_entropy Y P = ret v)
  /\ (Forall float_range Y ->
      (Int64.m_cross_entropy Y P = raise ValueError <-> mismatch Y P)
      /\ (~ mismatch Y P ->
          exists v : float_, Int64.m_cross_entropy Y P = ret v)).
Proof.
  intros _.
  assert (Hdec : Forall in_range Y \/ ~ Forall in_range Y).
  { destruct (forallb fits (map int_1 Y)) eqn:E.
    - left. apply forallb_fits. exact E.
    - right. intros HY. apply forallb_fits in HY. congruence. }
  split; [|split; [|split]].
  - destruct Hdec as [HY|HY].
    + destruct (cross_entropy_cases Y P HY) as [[_ ->] | [_ [v ->]]];
        split; try discriminate; intros Hn; contradiction.
    + rewrite (np_int_out_of_range_raises Y P HY). split; auto.
  - destruct Hdec as [HY|HY].
    + destruct (cross_entropy_cases Y P HY) as [[Hm ->] | [Hm [v ->]]].
      * split; auto.
      * split; [discriminate | intros [_ Hc]; contradiction].
    + rewrite (np_int_out_of_range_raises Y P HY).
      split; [discriminate | intros [Hc _]; contradiction].
  - intros HY Hn.
    destruct (cross_entropy_cases Y P HY) as [[Hm _] | [_ Hv]];
      [contradiction | exact Hv].
  - intros _. unfold Int64.m_cross_entropy.
    destruct (CrossEntropyMore.m_cross_entropy_cases Y P)
      as [[Hm ->] | [Hm [v ->]]]; simpl.
    + split; [split; auto | intros Hn; contradiction].
    + split; [split; [discriminate | intros Hc; contradiction]|].
      intros _. exists v. reflexivity.
Qed.

Lemma cross_entropy_exceptions_witness :
  (exists v : float_, Int64.cross_entropy [1; 0] [1 / 2] = ret v)
  /\ (exists v : float_, Int64.m_cross_entropy [1; 0] [1 / 2] = ret v).
Proof.
  assert (HP : Forall float_range [1 / 2]).
  { repeat (apply Forall_cons; [unfold float_range; lra|]). apply Forall_nil. }
  assert (Hn : ~ mismatch [1; 0] [1 / 2]).
  { unfold mismatch. simpl. intros (_ & _ & H). apply H. reflexivity. }
  pose proof (cross_entropy_exceptions [1; 0] [1 / 2] HP)
    as (_ & _ & Hce & Hm).
  split.
  - apply Hce; [|exact Hn].
    repeat (apply Forall_cons; [unfold in_range; lra|]). apply Forall_nil.
  - apply Hm; [|exact Hn].
    repeat (apply Forall_cons; [unfold float_range; lra|]). apply Forall_nil.
Defined.

End Int64More.

(* ===================================================================== *)
(** ** The calls of the Spam & Ensembles notebook                         *)
(* ===================================================================== *)

Module SpamMore.

Import Py Spam SpamCalls PyFacts.
Local Open Scope string_scope.

Section Notebook.

Context `{Library}.
Variable W : Type.
Variable h : handler libE W.

Ltac answer :=
  match goal with
  | |- context [h ?X ?e ?w] =>
      let x := fresh "x" in
      let w' := fresh "w" in
      destruct (h X e w) as [x w'];
      try match type of x with
          | unit => destruct x
          | prod _ _ => destruct x as [[[? ?] ?] ?]
          end
  end.

(** Every call of the notebook, with the names bound at its end. *)
Lemma spam_notebook_calls (w : W) :
  exists (ns : namespace) (w' : W) (t : list (entry libE)),
    run h notebook w = (inr ns, w', t)
    /\ collect fit_transform_of t = [(count_vector ns, X_train ns)]
    /\ collect transform_of t = [(count_vector ns, X_test ns)]
    /\ collect fit_of t
       = [(naive_bayes ns, training_data ns, y_train ns);
          (bagging_class ns, training_data ns, y_train ns);
          (randomForest_class ns, training_data ns, y_train ns);
          (adaBoost_class ns, training_data ns, y_train ns)]
    /\ collect predict_of t
       = [(naive_bayes ns, testing_data ns);
          (bagging_class ns, testing_data ns);
          (randomForest_class ns, testing_data ns);
          (adaBoost_class ns, testing_data ns)]
    /\ (forall (W' : Type) (h' : handler libE W') (w0 : W'),
           firstn 4 (printed t)
           = firstn 4 (printed (trace (run h'
                 (print_metrics (y_test ns) (predictions ns) None) w0)))).
Proof.
  unfold notebook. simpl. repeat (answer; simpl).
  do 3 eexists. split; [reflexivity|].
  repeat (split; [reflexivity|]).
  intros W' h' u. simpl.
  repeat match goal with
         | |- context [h' ?X ?e ?w] =>
             let x := fresh "x" in
             let w' := fresh "w" in
             destruct (h' X e w) as [x w']; simpl
         end.
  reflexivity.
Qed.

(** X10. The scores that the first code cell prints inline are the four
    metric lines that [print_metrics] prints for the same labels and
    predictions when called without a model name. *)
Theorem inline_scores_are_print_metrics (w : W) :
  exists (ns : namespace) (w' : W) (t : list (entry libE)),
    run h notebook w = (inr ns, w', t)
    /\ forall (W' : Type) (h' : handler libE W') (w0 : W'),
         firstn 4 (printed t)
         = firstn 4 (printed (trace (run h'
               (print_metrics (y_test ns) (predictions ns) None) w0))).
Proof.
  destruct (spam_notebook_calls w) as (ns & w' & t & Hrun & _ & _ & _ & _ & Hp).
  exists ns, w', t. split; assumption.
Qed.

(** X11. The data flow of a run, call by call: the frame that was read gives
    the two columns that are split; [X_train], [X_test], [y_train] and
    [y_test] are the four parts the split answers; the vectorizer is fitted
    on [X_train], which gives [training_data], and only transforms [X_test],
    which gives [testing_data]; each of the four classifiers is fitted once,
    on [training_data] and [y_train], and predicts once, on [testing_data],
    which gives its predictions.  The held-out data never reaches a fit. *)
Theorem test_data_never_fitted (w : W) :
  exists (ns : namespace) (w' : W) (t : list (entry libE))
         (label mapped sms_message labels : Series)
         (nb bag rf ada : Classifier),
    run h notebook w = (inr ns, w', t)
    /\ collect data_call t
       = [Entry (read_table "Data/SMSSpamCollection" tab None
                   ["label"; "sms_message"]) (df ns);
          Entry (getitem (df ns) "label") label;
          Entry (map_ label [("ham", 0%Z); ("spam", 1%Z)]) mapped;
          Entry (setitem (df ns) "label" mapped) tt;
          Entry (getitem (df ns) "sms_message") sms_message;
          Entry (getitem (df ns) "label") labels;
          Entry (train_test_split sms_message labels 1)
            (X_train ns, X_test ns, y_train ns, y_test ns);
          Entry CountVectorizer (count_vector ns);
          Entry (fit_transform (count_vector ns) (X_train ns))
            (training_data ns);
          Entry (transform (count_vector ns) (X_test ns)) (testing_data ns);
          Entry (new MultinomialNB) (naive_bayes ns);
          Entry (fit (naive_bayes ns) (training_data ns) (y_train ns)) nb;
          Entry (predict (naive_bayes ns) (testing_data ns)) (predictions ns);
          Entry (new (BaggingClassifier 200)) (bagging_class ns);
          Entry (new (RandomForestClassifier 200)) (randomForest_class ns);
          Entry (new (AdaBoostClassifier 300 (2 # 10))) (adaBoost_class ns);
          Entry (fit (bagging_class ns) (training_data ns) (y_train ns)) bag;
          Entry (fit (randomForest_class ns) (training_data ns) (y_train ns))
            rf;
          Entry (fit (adaBoost_class ns) (training_data ns) (y_train ns)) ada;
          Entry (predict (bagging_class ns) (testing_data ns))
            (bagging_pred ns);
          Entry (predict (randomForest_class ns) (testing_data ns))
            (random_pred ns);
          Entry (predict (adaBoost_class ns) (testing_data ns)) (ada_pred ns)]
    /\ collect fit_transform_of t = [(count_vector ns, X_train ns)]
    /\ collect transform_of t = [(count_vector ns, X_test ns)]
    /\ collect fit_of t
       = [(naive_bayes ns, training_data ns, y_train ns);
          (bagging_class ns, training_data ns, y_train ns);
          (randomForest_class ns, training_data ns, y_train ns);
          (adaBoost_class ns, training_data ns, y_train ns)]
    /\ collect predict_of t
       = [(naive_bayes ns, testing_data ns);
          (bagging_class ns, testing_data ns);
          (randomForest_class ns, testing_data ns);
          (adaBoost_class ns, testing_data ns)].
Proof.
  unfold notebook. simpl. repeat (answer; simpl).
  do 11 eexists. split; [reflexivity|].
  repeat (split; [reflexivity|]). reflexivity.
Qed.

End Notebook.

End SpamMore.

(* ===================================================================== *)
(** ** The calls of the training cell                                     *)
(* ===================================================================== *)

Module TrainingMore.

Import Py Training TrainingCalls PyFacts TrainingFacts.
Local Open Scope string_scope.

Section Cell.

Context `{Library}.
Variable W : Type.
Variable h : handler torchE W.

Section Loop.

Variables (model : Model) (criterion : Criterion) (optimizer : Optimizer).

(** What one batch contributes to each view of the run. *)
Lemma batch_calls_views (b : Tensor * Tensor) (t : list (entry torchE)) :
  batch_calls model criterion optimizer b t ->
  collect grad_of t = [ZeroGrad; Backward; Step]
  /\ collect batches_of t = []
  /\ collect len_of t = []
  /\ collect line_of t = []
  /\ exists x : pyfloat, collect item_of t = [x].
Proof.
  intros (flat & output & loss & x & ->). repeat split. exists x. reflexivity.
Qed.

Lemma batches_views (batches : list (Tensor * Tensor))
  (ts : list (list (entry torchE))) :
  Forall2 (batch_calls model criterion optimizer) batches ts ->
  collect grad_of (List.concat ts)
  = List.concat (repeat [ZeroGrad; Backward; Step] (List.length batches))
  /\ collect batches_of (List.concat ts) = []
  /\ collect len_of (List.concat ts) = []
  /\ collect line_of (List.concat ts) = [].
Proof.
  induction 1 as [|b t batches ts Hb _ (IHg & IHb & IHl & IHp)].
  - repeat split.
  - destruct (batch_calls_views b t Hb) as (Hg & Hbt & Hl & Hp & _).
    simpl List.concat. rewrite !collect_app, Hg, Hbt, Hl, Hp, IHg, IHb, IHl, IHp.
    repeat split.
Qed.

(** The inner loop returns [running_loss] plus the items of its batches,
    in order. *)
Lemma batches_loop_sum (batches : list (Tensor * Tensor)) :
  forall (running_loss : pyfloat) (w : W),
  exists (w' : W) (ts : list (list (entry torchE))),
    run h (batches_loop model criterion optimizer running_loss batches) w
    = (inr (fold_left plus (collect item_of (List.concat ts)) running_loss),
       w', List.concat ts)
    /\ Forall2 (batch_calls model criterion optimizer) batches ts.
Proof.
  induction batches as [|[images labels] rest IH]; intros running_loss w.
  - exists w, []. split; [reflexivity | constructor].
  - simpl.
    destruct (h _ (view_flat images) w) as [flat w1].
    destruct (h _ (zero_grad optimizer) w1) as [[] w2].
    destruct (h _ (forward model flat) w2) as [output w3].
    destruct (h _ (criterion_ criterion output labels) w3) as [loss w4].
    destruct (h _ (backward loss) w4) as [[] w5].
    destruct (h _ (step optimizer) w5) as [[] w6].
    destruct (h _ (item loss) w6) as [x w7].
    destruct (IH (plus running_loss x) w7) as (w8 & ts & -> & Hts).
    exists w8,
      ([Entry (view_flat images) flat;
        Entry (zero_grad optimizer) tt;
        Entry (forward model flat) output;
        Entry (criterion_ criterion output labels) loss;
        Entry (backward loss) tt;
        Entry (step optimizer) tt;
        Entry (item loss) x] :: ts).
    split; [reflexivity|].
    constructor; [|exact Hts].
    do 4 eexists. reflexivity.
Qed.

(** One epoch with a non-empty loader: its calls, and its report. *)
Lemma epoch_body_report (e : nat) (w : W) :
  loader_nonempty h ->
  exists (w' : W) (t : list (entry torchE)),
    run h (epoch_body model criterion optimizer e) w = (inr tt, w', t)
    /\ epoch_reports_mean t.
Proof.
  intros Hlen. unfold epoch_body.
  rewrite run_bind, run_call.
  destruct (h _ (iterate trainloader) w) as [batches w1]. cbn [fst snd].
  rewrite run_bind.
  destruct (batches_loop_sum batches zero w1) as (w2 & ts & -> & Hts).
  rewrite run_bind, run_call.
  pose proof (Hlen w2) as Hn.
  destruct (h _ (len trainloader) w2) as [n w3]. cbn [fst snd] in *.
  destruct n as [|n]; [contradiction|].
  simpl. destruct (h _ (print _) w3) as [[] w4].
  do 2 eexists. split; [reflexivity|].
  destruct (batches_views batches ts Hts) as (_ & _ & Hl & Hp).
  exists batches. eexists. exists (S n). split; [reflexivity|].
  split; [|split].
  - unfold passes. rewrite filter_app, (batches_passes _ _ _ batches ts Hts).
    reflexivity.
  - simpl. rewrite collect_app, Hl. reflexivity.
  - simpl. rewrite !collect_app, Hp. simpl. rewrite app_nil_r. reflexivity.
Qed.

Lemma epochs_report (es : list nat) :
  loader_nonempty h ->
  forall w : W,
  exists (w' : W) (ts : list (list (entry torchE))),
    run h (for_each es (epoch_body model criterion optimizer)) w
    = (inr tt, w', List.concat ts)
    /\ List.length ts = List.length es
    /\ Forall epoch_reports_mean ts.
Proof.
  intros Hlen. induction es as [|e es IH]; intros w.
  - exists w, []. repeat split. constructor.
  - rewrite for_each_cons, run_bind.
    destruct (epoch_body_report e w Hlen) as (w1 & t1 & -> & He).
    destruct (IH w1) as (w2 & ts & -> & Hl & Hts).
    exists w2, (t1 :: ts). split; [reflexivity|]. split.
    + simpl. congruence.
    + constructor; assumption.
Qed.

(** One epoch with an empty loader: the division raises before the print. *)
Lemma epoch_body_empty (e : nat) (w : W) :
  loader_empty h ->
  exists (w' : W) (t : list (entry torchE)),
    run h (epoch_body model criterion optimizer e) w
    = (inl ZeroDivisionError, w', t)
    /\ passes t = 1%nat
    /\ collect line_of t = [].
Proof.
  intros Hlen. unfold epoch_body.
  rewrite run_bind, run_call.
  destruct (h _ (iterate trainloader) w) as [batches w1]. cbn [fst snd].
  rewrite run_bind.
  destruct (batches_loop_sum batches zero w1) as (w2 & ts & -> & Hts).
  rewrite run_bind, run_call.
  pose proof (Hlen w2) as Hn.
  destruct (h _ (len trainloader) w2) as [n w3]. cbn [fst snd] in *.
  subst n. simpl.
  do 2 eexists. split; [reflexivity|].
  destruct (batches_views batches ts Hts) as (_ & _ & _ & Hp).
  split.
  - unfold passes. simpl.
    rewrite filter_app, (batches_passes _ _ _ batches ts Hts). reflexivity.
  - simpl. rewrite collect_app, Hp. reflexivity.
Qed.

Lemma epoch_calls_grads (t : list (entry torchE)) :
  epoch_calls model criterion optimizer t ->
  collect grad_of t
  = List.concat (repeat [ZeroGrad; Backward; Step] (batches_seen t)).
Proof.
  intros (batches & ts & n & line & Hts & ->).
  destruct (batches_views batches ts Hts) as (Hg & Hb & _ & _).
  unfold batches_seen. simpl. rewrite !collect_app, Hg, Hb. simpl.
  rewrite app_nil_r, Nat.add_0_r. reflexivity.
Qed.

Lemma epochs_grads (es : list (list (entry torchE))) :
  Forall (epoch_calls model criterion optimizer) es ->
  collect grad_of (List.concat es)
  = List.concat (repeat [ZeroGrad; Backward; Step]
                   (batches_seen (List.concat es))).
Proof.
  induction 1 as [|t es Ht _ IH]; [reflexivity|].
  unfold batches_seen in *. simpl List.concat.
  rewrite !collect_app, list_sum_app, repeat_app, concat_app.
  rewrite <- IH. fold (batches_seen t).
  rewrite <- (epoch_calls_grads t Ht). reflexivity.
Qed.

End Loop.

Lemma training_calls_grads (n : nat) (t : list (entry torchE)) :
  training_calls n t ->
  collect grad_of t
  = List.concat (repeat [ZeroGrad; Backward; Step] (batches_seen t)).
Proof.
  intros (m & c & p & o & es & _ & Hes & ->).
  unfold batches_seen. rewrite !collect_app. simpl.
  apply (epochs_grads m c o es Hes).
Qed.

(** X12. Against a library whose loader reports length 0, the training cell
    stops with ZeroDivisionError at the end of its first pass: one pass is
    made and no line is printed. *)
Theorem training_cell_empty_loader (w : W) :
  loader_empty h ->
  let r := run h training_cell w in
  outcome r = inl ZeroDivisionError
  /\ passes (trace r) = 1%nat
  /\ collect line_of (trace r) = [].
Proof.
  intros Hlen. unfold training_cell.
  rewrite run_bind, run_call.
  destruct (h _ (Sequential layers) w) as [m w1]. cbn [fst snd].
  rewrite run_bind, run_call.
  destruct (h _ NLLLoss w1) as [c w2]. cbn [fst snd].
  rewrite run_bind, run_call.
  destruct (h _ (parameters m) w2) as [p w3]. cbn [fst snd].
  rewrite run_bind, run_call.
  destruct (h _ (SGD p (3 # 1000)) w3) as [o w4]. cbn [fst snd].
  change (range epochs) with (0%nat :: seq 1 4).
  rewrite for_each_cons, run_bind.
  destruct (epoch_body_empty m c o 0%nat w4 Hlen) as (w5 & t & -> & Hp & Hl).
  simpl. repeat split; assumption.
Qed.

(** X13. Against a library whose loader is not empty, the calls of the
    training cell that touch the gradients are [zero_grad], [backward],
    [step], in this order, once for every batch the passes yield: no
    gradient is carried from one batch to the next, and each is applied
    once. *)
Theorem training_cell_gradient_calls (w : W) :
  loader_nonempty h ->
  let t := trace (run h training_cell w) in
  collect grad_of t
  = List.concat (repeat [ZeroGrad; Backward; Step] (batches_seen t)).
Proof.
  intros Hlen.
  destruct (training_cell_run W h w Hlen) as (w' & t & -> & Ht).
  simpl. apply (training_calls_grads _ _ Ht).
Qed.

(** X14. Against a library whose loader is not empty, the run of the
    training cell is four set-up calls followed by five epochs, and each
    epoch prints one line: the sum of the [loss.item()] values of that
    epoch's own batches, counted from 0, divided by [len(trainloader)]. *)
Theorem training_cell_reports_epoch_mean (w : W) :
  loader_nonempty h ->
  exists (setup : list (entry torchE)) (es : list (list (entry torchE))),
    trace (run h training_cell w) = (setup ++ List.concat es)%list
    /\ List.length setup = 4%nat
    /\ passes setup = 0%nat
    /\ List.length es = 5%nat
    /\ Forall epoch_reports_mean es.
Proof.
  intros Hlen. unfold training_cell.
  rewrite run_bind, run_call.
  destruct (h _ (Sequential layers) w) as [m w1]. cbn [fst snd].
  rewrite run_bind, run_call.
  destruct (h _ NLLLoss w1) as [c w2]. cbn [fst snd].
  rewrite run_bind, run_call.
  destruct (h _ (parameters m) w2) as [p w3]. cbn [fst snd].
  rewrite run_bind, run_call.
  destruct (h _ (SGD p (3 # 1000)) w3) as [o w4]. cbn [fst snd].
  destruct (epochs_report m c o (range epochs) Hlen w4)
    as (w5 & ts & -> & Hl & Hts).
  exists [Entry (Sequential layers) m; Entry NLLLoss c;
          Entry (parameters m) p; Entry (SGD p (3 # 1000)) o], ts.
  split; [reflexivity|].
  repeat split; [exact Hl | exact Hts].
Qed.

End Cell.

(** The theorems at work on the one-batch library and on its emptied
    variant. *)
Lemma training_cell_empty_loader_witness :
  outcome (run ToyMore.torch_empty_handler (@training_cell Toy.torch) tt)
  = inl ZeroDivisionError
  /\ passes (trace (run ToyMore.torch_empty_handler
                      (@training_cell Toy.torch) tt)) = 1%nat
  /\ collect line_of (trace (run ToyMore.torch_empty_handler
                               (@training_cell Toy.torch) tt)) = [].
Proof.
  apply (@training_cell_empty_loader Toy.torch unit
           ToyMore.torch_empty_handler tt).
  intros w. reflexivity.
Defined.

Lemma training_cell_gradient_calls_witness :
  collect grad_of (trace (run Toy.torch_handler (@training_cell Toy.torch) tt))
  = List.concat
      (repeat [ZeroGrad; Backward; Step]
         (batches_seen
            (trace (run Toy.torch_handler (@training_cell Toy.torch) tt)))).
Proof.
  apply (@training_cell_gradient_calls Toy.torch unit Toy.torch_handler tt).
  intros w. simpl. discriminate.
Defined.

Lemma training_cell_reports_epoch_mean_witness :
  exists (setup : list (entry (@torchE Toy.torch)))
         (es : list (list (entry (@torchE Toy.torch)))),
    trace (run Toy.torch_handler (@training_cell Toy.torch) tt)
    = (setup ++ List.concat es)%list
    /\ List.length setup = 4%nat
    /\ passes setup = 0%nat
    /\ List.length es = 5%nat
    /\ Forall epoch_reports_mean es.
Proof.
  apply (@training_cell_reports_epoch_mean Toy.torch unit
           Toy.torch_handler tt).
  intros w. simpl. discriminate.
Defined.

End TrainingMore.

(* ===================================================================== *)
(** ** The split of the regularization data                               *)
(* ===================================================================== *)

Module RegularizationMore.

Import Py Regularization PyFacts RegularizationFacts.
Local Open Scope string_scope.

Section Notebook.

Context `{Library}.
Variable W : Type.
Variable h : handler libE W.

(** The two slices of a frame that has a column put it back together. *)
Lemma iloc_partition (c : column) (df : frame) :
  (iloc_but_last (c :: df) ++ [last (c :: df) []])%list = c :: df.
Proof.
  unfold iloc_but_last. symmetry. apply app_removelast_last. discriminate.
Qed.

(** The run of the notebook on a frame with a column. *)
Lemma regularization_notebook_calls (w : W) (ns : namespace) :
  outcome (run h notebook w) = inr ns ->
  (X ns ++ [y ns])%list = train_data ns
  /\ exists m : Lasso_,
       trace (run h notebook w)
       = [Entry (read_csv "testData/regularizationData.csv" default_sep None)
            (train_data ns);
          Entry Lasso (lasso_reg ns);
          Entry (fit (lasso_reg ns) (X ns) (y ns)) m;
          Entry (coef_ (lasso_reg ns)) (reg_coef ns)].
Proof.
  unfold notebook. simpl.
  destruct (h _ (read_csv _ _ _) w) as [df w1].
  destruct df as [|c df]; [discriminate|].
  rewrite run_bind, iloc_last_cons. simpl.
  destruct (h _ Lasso w1) as [m w2].
  destruct (h _ (fit _ _ _) w2) as [m' w3].
  destruct (h _ (coef_ _) w3) as [k w4].
  simpl. intros Hns. inversion Hns. subst ns. simpl.
  split; [apply (iloc_partition c df)|].
  exists m'. reflexivity.
Qed.

(** X15. Whenever the notebook ends normally, [X] and [y] split the columns
    of the file between them: [X] followed by [y] is the frame that was
    read, so [X] has one column less than the frame and [y] is its last. *)
Theorem split_keeps_every_column (w : W) (ns : namespace) :
  outcome (run h notebook w) = inr ns ->
  (X ns ++ [y ns])%list = train_data ns
  /\ S (List.length (X ns)) = List.length (train_data ns).
Proof.
  intros Hns. destruct (regularization_notebook_calls w ns Hns) as [Hsplit _].
  split; [exact Hsplit|].
  rewrite <- Hsplit, length_app. simpl. lia.
Qed.

End Notebook.

Lemma split_keeps_every_column_witness :
  (X ToyMore.seven_columns_names ++ [y ToyMore.seven_columns_names])%list
  = train_data ToyMore.seven_columns_names
  /\ S (List.length (X ToyMore.seven_columns_names))
     = List.length (train_data ToyMore.seven_columns_names).
Proof.
  apply (@split_keeps_every_column Toy.pandas unit Toy.pandas_handler tt
           ToyMore.seven_columns_names).
  reflexivity.
Defined.

End RegularizationMore.
